(** * ZenB kernel: event-sourced breathing-protocol runtime

    A shallow embedding of [services/ZenBKernel.ts]: the free-energy
    controller, the safety plane and the kernel's dispatch pipeline
    (guard, persist, reduce, notify), with the properties the
    specification states about them.

    Numbers.  A JavaScript [number] is embedded as a rational [Q]: the
    arithmetic of the kernel (sums, products by constants, [Math.min],
    [Math.max], [Math.abs], comparisons) is read exactly, rounding is
    left out.  An optional field ([heart_rate?], [lastObservation | null])
    is an [option]; the truthiness test [x && ...] on an optional number
    is written out as "defined and not zero".

    Environment.  [Date.now()] and [document.hidden] are read from an
    explicit [Env] argument. *)

From Stdlib Require Import QArith Qabs Qminmax Lqa.
From stdpp Require Import gmap strings list fin_maps.

#[local] Open Scope Q_scope.

(** ** Data model

    [RuntimeState] is declared in the kernel module.  The types it
    imports from [../types] ([BreathPhase], [BreathPattern],
    [BeliefState], [Observation], [SafetyProfile], [KernelEvent]) are
    written from the fields the kernel and its driver read and write and
    from the data model of the specification. *)

(** [RuntimeState.status] *)
Inductive Status : Type := IDLE | RUNNING | PAUSED | HALTED | SAFETY_LOCK.

#[global] Instance Status_eq_dec : EqDecision Status :=
  ltac:(solve_decision).

(** [BreathPhase] of [../types]: the four keys of a pattern's timing
    table, as [useBreathEngine.ts] and the reducer use them. *)
Inductive BreathPhase : Type := inhale | holdIn | exhale | holdOut.

#[global] Instance BreathPhase_eq_dec : EqDecision BreathPhase :=
  ltac:(solve_decision).

(** [BreathPattern.timings]: seconds per phase. *)
Record Timings : Type := mkTimings {
  t_inhale : Q;
  t_holdIn : Q;
  t_exhale : Q;
  t_holdOut : Q
}.

(** [pattern.timings[phase]] *)
Definition timing_of (t : Timings) (p : BreathPhase) : Q :=
  match p with
  | inhale => t_inhale t
  | holdIn => t_holdIn t
  | exhale => t_exhale t
  | holdOut => t_holdOut t
  end.

Record BreathPattern : Type := mkBreathPattern {
  id : string;
  timings : Timings
}.

Record BeliefState : Type := mkBelief {
  arousal : Q;
  attention : Q;
  rhythm_alignment : Q;
  prediction_error : Q
}.

(** [Observation]; the field is spelled [visibilty_state] in the source. *)
Record Observation : Type := mkObservation {
  obs_timestamp : Q;
  delta_time : Q;
  visibilty_state : string;
  user_interaction : option string;
  heart_rate : option Q;
  hr_confidence : option Q
}.

Record SafetyProfile : Type := mkSafetyProfile {
  safety_lock_until : Q
}.

(** [KernelEvent]: the tagged union, one constructor per [type] tag; the
    last argument of each is the [timestamp]. *)
Inductive KernelEvent : Type :=
  | BOOT (timestamp : Q)
  | LOAD_PROTOCOL (patternId : string) (timestamp : Q)
  | START_SESSION (timestamp : Q)
  | INTERRUPTION (kind : string) (timestamp : Q)
  | RESUME (timestamp : Q)
  | HALT (reason : string) (timestamp : Q)
  | PHASE_TRANSITION (from to : BreathPhase) (timestamp : Q)
  | CYCLE_COMPLETE (count : Q) (timestamp : Q)
  | TICK (dt : Q) (timestamp : Q)
  | ADAPTATION (parameter : string) (timestamp : Q)
  | SAFETY_INTERDICTION (riskLevel : Q) (action : string) (timestamp : Q).

Record RuntimeState : Type := mkState {
  status : Status;
  bootTimestamp : Q;
  pattern : option BreathPattern;
  phase : BreathPhase;
  phaseElapsed : Q;
  phaseDuration : Q;
  cycleCount : Q;
  sessionDuration : Q;
  belief : BeliefState;
  lastObservation : option Observation;
  safetyRegistry : gmap string SafetyProfile
}.

(** ** Number helpers *)

(** [a > b] on numbers *)
Definition Qgtb (a b : Q) : bool := negb (Qle_bool a b).

(** Truthiness of an optional number: defined and not zero. *)
Definition truthy (x : option Q) : bool :=
  match x with
  | Some v => negb (Qeq_bool v 0)
  | None => false
  end.

(** [x > c] for an optional number: [undefined > c] is false. *)
Definition opt_gtb (x : option Q) (c : Q) : bool :=
  match x with
  | Some v => Qgtb v c
  | None => false
  end.

(** ** Active inference: [FreeEnergyController] *)

Module FreeEnergyController.

Definition expected_arousal : Q := 0.3.
Definition expected_attention : Q := 0.8.

(** [obs.heart_rate && obs.hr_confidence && obs.hr_confidence > 0.6] *)
Definition hr_usable (obs : Observation) : bool :=
  truthy (heart_rate obs) && truthy (hr_confidence obs)
  && opt_gtb (hr_confidence obs) 0.6.

Definition normalized_hr (hr : Q) : Q :=
  Qmin 1 (Qmax 0 ((hr - 50) / 70)).

Definition observed_arousal (b : BeliefState) (obs : Observation) : Q :=
  match heart_rate obs with
  | Some hr =>
      if hr_usable obs
      then arousal b * 0.9 + normalized_hr hr * 0.1
      else arousal b
  | None => arousal b
  end.

Definition isDistracted (obs : Observation) : bool :=
  bool_decide (user_interaction obs = Some "pause"%string)
  || bool_decide (visibilty_state obs = "hidden"%string).

Definition free_energy (b : BeliefState) (obs : Observation) : Q :=
  let error_arousal := Qabs (observed_arousal b obs - expected_arousal) in
  let error_attention := if isDistracted obs then 1.0 else 0.0 in
  (error_arousal * 0.4) + (error_attention * 0.6)
  + ((1 - rhythm_alignment b) * 0.3).

Definition update (currentBelief : BeliefState) (obs : Observation)
    (targetPattern : option BreathPattern) : BeliefState :=
  let dt := delta_time obs in
  let F := free_energy currentBelief obs in
  let attention' :=
    if isDistracted obs
    then Qmax 0 (attention currentBelief - (1.0 * dt))
    else Qmin 1 (attention currentBelief + (0.1 * dt)) in
  let rhythm_alignment' :=
    if isDistracted obs
    then Qmax 0 (rhythm_alignment currentBelief - (0.5 * dt))
    else Qmin 1 (rhythm_alignment currentBelief + (0.2 * dt)) in
  let arousal' :=
    arousal currentBelief
    + (observed_arousal currentBelief obs - arousal currentBelief) * dt in
  {| arousal := arousal';
     attention := attention';
     rhythm_alignment := rhythm_alignment';
     prediction_error := F |}.

End FreeEnergyController.

(** ** Environment and collaborators *)

(** What the kernel reads from its host on each call: [Date.now()] and
    [document.hidden]. *)
Record Env : Type := mkEnv {
  now : Q;
  document_hidden : bool
}.

(** Modelled from the spec: the result of [PersistentEventStore.append];
    the module [./eventStore] is a collaborator whose code lies outside
    this development, and the spec gives its operation as
    [append(event) -> Result<(), StorageError>]. *)
Inductive AppendResult : Type := AppendOk | StorageError.

(** ** Safety plane: [SafetyPlane.intercept] *)

Module SafetyPlane.

(** RULE 1: lockout enforcement *)
Definition rule1 (env : Env) (state : RuntimeState) (intention : KernelEvent)
    : option KernelEvent :=
  match intention with
  | START_SESSION _ =>
      if bool_decide (status state = SAFETY_LOCK)
      then Some (SAFETY_INTERDICTION 1.0 "REJECT_START" (now env))
      else None
  | _ => None
  end.

(** RULE 2: high entropy cutoff *)
Definition rule2 (env : Env) (state : RuntimeState) (intention : KernelEvent)
    : option KernelEvent :=
  match intention with
  | TICK _ _ =>
      if bool_decide (status state = RUNNING)
      then
        if Qgtb (prediction_error (belief state)) 0.95
           && Qgtb (sessionDuration state) 10
        then Some (SAFETY_INTERDICTION 0.95 "EMERGENCY_DAMPENING" (now env))
        else None
      else None
  | _ => None
  end.

(** RULE 3: pattern suitability *)
Definition rule3 (env : Env) (state : RuntimeState) (intention : KernelEvent)
    : option KernelEvent :=
  match intention with
  | LOAD_PROTOCOL patternId _ =>
      match safetyRegistry state !! patternId with
      | Some profile =>
          if Qgtb (safety_lock_until profile) (now env)
          then Some (SAFETY_INTERDICTION 0.8 "PATTERN_LOCKED" (now env))
          else None
      | None => None
      end
  | _ => None
  end.

(** The three rules in order, the first that fires returns. *)
Definition intercept (env : Env) (state : RuntimeState)
    (intention : KernelEvent) : option KernelEvent :=
  match rule1 env state intention with
  | Some e => Some e
  | None =>
      match rule2 env state intention with
      | Some e => Some e
      | None => rule3 env state intention
      end
  end.

End SafetyPlane.

(** ** Record updates on [RuntimeState] *)

Definition set_status (v : Status) (s : RuntimeState) : RuntimeState :=
  mkState v (bootTimestamp s) (pattern s) (phase s) (phaseElapsed s)
    (phaseDuration s) (cycleCount s) (sessionDuration s) (belief s)
    (lastObservation s) (safetyRegistry s).

Definition set_pattern (v : option BreathPattern) (s : RuntimeState) : RuntimeState :=
  mkState (status s) (bootTimestamp s) v (phase s) (phaseElapsed s)
    (phaseDuration s) (cycleCount s) (sessionDuration s) (belief s)
    (lastObservation s) (safetyRegistry s).

Definition set_phase (v : BreathPhase) (s : RuntimeState) : RuntimeState :=
  mkState (status s) (bootTimestamp s) (pattern s) v (phaseElapsed s)
    (phaseDuration s) (cycleCount s) (sessionDuration s) (belief s)
    (lastObservation s) (safetyRegistry s).

Definition set_phaseElapsed (v : Q) (s : RuntimeState) : RuntimeState :=
  mkState (status s) (bootTimestamp s) (pattern s) (phase s) v
    (phaseDuration s) (cycleCount s) (sessionDuration s) (belief s)
    (lastObservation s) (safetyRegistry s).

Definition set_phaseDuration (v : Q) (s : RuntimeState) : RuntimeState :=
  mkState (status s) (bootTimestamp s) (pattern s) (phase s) (phaseElapsed s)
    v (cycleCount s) (sessionDuration s) (belief s)
    (lastObservation s) (safetyRegistry s).

Definition set_cycleCount (v : Q) (s : RuntimeState) : RuntimeState :=
  mkState (status s) (bootTimestamp s) (pattern s) (phase s) (phaseElapsed s)
    (phaseDuration s) v (sessionDuration s) (belief s)
    (lastObservation s) (safetyRegistry s).

Definition set_sessionDuration (v : Q) (s : RuntimeState) : RuntimeState :=
  mkState (status s) (bootTimestamp s) (pattern s) (phase s) (phaseElapsed s)
    (phaseDuration s) (cycleCount s) v (belief s)
    (lastObservation s) (safetyRegistry s).

Definition set_belief (v : BeliefState) (s : RuntimeState) : RuntimeState :=
  mkState (status s) (bootTimestamp s) (pattern s) (phase s) (phaseElapsed s)
    (phaseDuration s) (cycleCount s) (sessionDuration s) v
    (lastObservation s) (safetyRegistry s).

Definition set_lastObservation (v : option Observation) (s : RuntimeState) : RuntimeState :=
  mkState (status s) (bootTimestamp s) (pattern s) (phase s) (phaseElapsed s)
    (phaseDuration s) (cycleCount s) (sessionDuration s) (belief s)
    v (safetyRegistry s).

Definition set_safetyRegistry (v : gmap string SafetyProfile) (s : RuntimeState) : RuntimeState :=
  mkState (status s) (bootTimestamp s) (pattern s) (phase s) (phaseElapsed s)
    (phaseDuration s) (cycleCount s) (sessionDuration s) (belief s)
    (lastObservation s) v.

(** ** The kernel: [ZenBKernel] *)

(** The kernel object.  Subscribers are observers known by an identifier;
    what [notify] and [subscribe] hand to them is recorded in
    [delivered], oldest first. *)
Record ZenBKernel (Store : Type) : Type := mkKernel {
  state : RuntimeState;
  eventStore : Store;
  logBuffer : list KernelEvent;
  subscribers : list nat;
  delivered : list (nat * RuntimeState)
}.

Arguments mkKernel {Store} _ _ _ _ _.
Arguments state {Store} _.
Arguments eventStore {Store} _.
Arguments logBuffer {Store} _.
Arguments subscribers {Store} _.
Arguments delivered {Store} _.

Definition with_state {Store : Type} (s : RuntimeState) (k : ZenBKernel Store)
    : ZenBKernel Store :=
  mkKernel s (eventStore k) (logBuffer k) (subscribers k) (delivered k).

Section Kernel.

(** The collaborators that are imported by the kernel module and are not
    embedded here. *)

(** [PersistentEventStore] of [./eventStore]: its state and its [append]. *)
Variable Store : Type.
Variable init_store : Store.
Variable append : KernelEvent -> Store -> AppendResult * Store.

(** [BREATHING_PATTERNS] of [../types]: the catalogue of patterns by id. *)
Variable BREATHING_PATTERNS : gmap string BreathPattern.

(** [nextPhaseSkipZero] and [isCycleBoundary] of [./phaseMachine]. *)
Variable nextPhaseSkipZero : BreathPhase -> BreathPattern -> BreathPhase.
Variable isCycleBoundary : BreathPhase -> bool.

#[local] Abbreviation Kernel := (ZenBKernel Store).

(** [getInitialState] *)
Definition getInitialState (env : Env) : RuntimeState :=
  {| status := IDLE;
     bootTimestamp := now env;
     pattern := None;
     phase := inhale;
     phaseElapsed := 0;
     phaseDuration := 0;
     cycleCount := 0;
     sessionDuration := 0;
     belief := {| arousal := 0.5; attention := 0.5;
                  rhythm_alignment := 0; prediction_error := 0 |};
     lastObservation := None;
     safetyRegistry := ∅ |}.

(** [notify]: every subscriber receives [{ ...this.state }]. *)
Definition notify (k : Kernel) : Kernel :=
  mkKernel (state k) (eventStore k) (logBuffer k) (subscribers k)
    (delivered k ++ map (fun cb => (cb, state k)) (subscribers k)).

(** [handleTick]; [self] is [this.dispatch]. *)
Definition handleTick (self : Kernel -> KernelEvent -> option Kernel)
    (env : Env) (k : Kernel) (dt : Q) : option Kernel :=
  let s := state k in
  if negb (bool_decide (status s = RUNNING))
     && negb (bool_decide (status s = PAUSED))
  then Some k
  else
    let obs :=
      {| obs_timestamp := now env;
         delta_time := dt;
         visibilty_state := if document_hidden env then "hidden" else "visible";
         user_interaction :=
           if bool_decide (status s = PAUSED) then Some "pause"%string else None;
         heart_rate := o ← lastObservation s; heart_rate o;
         hr_confidence := o ← lastObservation s; hr_confidence o |} in
    let s1 := set_belief (FreeEnergyController.update (belief s) obs (pattern s)) s in
    match (if bool_decide (status s1 = RUNNING) then pattern s1 else None) with
    | Some p =>
        let s2 := set_phaseElapsed (phaseElapsed s1 + dt) s1 in
        let s3 := set_sessionDuration (sessionDuration s2 + dt) s2 in
        if Qle_bool (phaseDuration s3) (phaseElapsed s3)
        then
          let next := nextPhaseSkipZero (phase s3) p in
          k1 ← self (with_state s3 k) (PHASE_TRANSITION (phase s3) next (now env));
          if isCycleBoundary next
          then self k1 (CYCLE_COMPLETE (cycleCount (state k1) + 1) (now env))
          else Some k1
        else Some (with_state s3 k)
    | None => Some (with_state s1 k)
    end.

(** [reduce]; [self] is [this.dispatch], reached through [handleTick]. *)
Definition reduce (self : Kernel -> KernelEvent -> option Kernel)
    (env : Env) (k : Kernel) (event : KernelEvent) : option Kernel :=
  let s := state k in
  match event with
  | BOOT _ => Some (with_state (set_status IDLE s) k)
  | LOAD_PROTOCOL patternId _ =>
      if bool_decide (status s = SAFETY_LOCK) then Some k
      else
        match BREATHING_PATTERNS !! patternId with
        | Some pattern =>
            let s := set_pattern (Some pattern) s in
            let s := set_phase inhale s in
            let s := set_phaseDuration (t_inhale (timings pattern)) s in
            let s := set_phaseElapsed 0 s in
            let s := set_cycleCount 0 s in
            let s := set_sessionDuration 0 s in
            let s := set_status IDLE s in
            let s :=
              set_belief
                {| arousal := arousal (belief s);
                   attention := attention (belief s);
                   rhythm_alignment := 0;
                   prediction_error := 0 |} s in
            Some (with_state s k)
        | None => Some k
        end
  | START_SESSION _ =>
      match pattern s with
      | Some _ => Some (with_state (set_status RUNNING s) k)
      | None => Some k
      end
  | INTERRUPTION _ _ =>
      if bool_decide (status s = RUNNING)
      then Some (with_state (set_status PAUSED s) k)
      else Some k
  | RESUME _ =>
      if bool_decide (status s = PAUSED)
      then Some (with_state (set_status RUNNING s) k)
      else Some k
  | HALT _ _ =>
      Some (with_state (set_phaseElapsed 0 (set_status IDLE s)) k)
  | SAFETY_INTERDICTION _ action _ =>
      if bool_decide (action = "EMERGENCY_DAMPENING"%string)
      then Some (with_state (set_status SAFETY_LOCK s) k)
      else Some k
  | PHASE_TRANSITION _ to _ =>
      let s := set_phase to s in
      let s := set_phaseElapsed 0 s in
      match pattern s with
      | Some p => Some (with_state (set_phaseDuration (timing_of (timings p) to) s) k)
      | None => Some (with_state s k)
      end
  | CYCLE_COMPLETE count _ =>
      Some (with_state (set_cycleCount count s) k)
  | TICK dt _ => handleTick self env k dt
  | ADAPTATION _ _ => Some k
  end.

(** [dispatch]: guard, persist, reduce, notify.  The method calls itself
    through [reduce] and [handleTick]; [fuel] bounds the nesting of
    these calls, and [None] means the bound was reached. *)
Fixpoint dispatch (fuel : nat) (env : Env) (k : Kernel)
    (intention : KernelEvent) : option Kernel :=
  match fuel with
  | O => None
  | S fuel' =>
      let interdiction := SafetyPlane.intercept env (state k) intention in
      let eventToProcess := default intention interdiction in
      let store' := snd (append eventToProcess (eventStore k)) in
      let k1 :=
        mkKernel (state k) store'
          (take 50 (eventToProcess :: logBuffer k))
          (subscribers k) (delivered k) in
      k2 ← reduce (dispatch fuel' env) env k1 eventToProcess;
      Some (notify k2)
  end.

(** The kernel after steps 1 to 3 of [dispatch]: the event is handed to
    the store and pushed on the log buffer; the state is still the one
    the guard saw. *)
Definition logged (event : KernelEvent) (k : Kernel) : Kernel :=
  mkKernel (state k) (snd (append event (eventStore k)))
    (take 50 (event :: logBuffer k)) (subscribers k) (delivered k).

(** The store after a sequence of appends. *)
Definition append_all (events : list KernelEvent) (st : Store) : Store :=
  foldl (fun st e => snd (append e st)) st events.

(** The events of a tick that crosses a phase boundary, in the order of
    their dispatch: the tick, the transition to the next phase and, when
    that phase is the cycle boundary, the completed cycle. *)
Definition crossing_events (env : Env) (s : RuntimeState) (p : BreathPattern)
    (dt ts : Q) : list KernelEvent :=
  let next := nextPhaseSkipZero (phase s) p in
  [TICK dt ts; PHASE_TRANSITION (phase s) next (now env)]
  ++ (if isCycleBoundary next
      then [CYCLE_COMPLETE (cycleCount s + 1) (now env)]
      else []).

(** Durability before effect, as the specification words it: when the
    append of the event fails, the dispatch leaves the state as it was. *)
Definition durability_before_effect (fuel : nat) (env : Env) (k : Kernel)
    (intention : KernelEvent) : Prop :=
  let event :=
    default intention (SafetyPlane.intercept env (state k) intention) in
  fst (append event (eventStore k)) = StorageError ->
  forall k', dispatch fuel env k intention = Some k' -> state k' = state k.

(** The cycle count as the specification words it: it never decreases
    across a dispatched event other than LOAD_PROTOCOL, and only
    LOAD_PROTOCOL brings it back to 0. *)
Definition cycleCount_only_reset_by_load (fuel : nat) (env : Env) (k : Kernel)
    (intention : KernelEvent) : Prop :=
  (forall patternId ts, intention <> LOAD_PROTOCOL patternId ts) ->
  forall k',
    dispatch fuel env k intention = Some k' ->
    cycleCount (state k) <= cycleCount (state k')
    /\ (cycleCount (state k') == 0 -> cycleCount (state k) == 0).

(** The constructor: initial state, [eventStore.init()], then the boot
    event. *)
Definition construct (fuel : nat) (env : Env) : option Kernel :=
  dispatch fuel env
    (mkKernel (getInitialState env) init_store [] [] [])
    (BOOT (now env)).

(** [getState], [getLogBuffer] *)
Definition getState (k : Kernel) : RuntimeState := state k.
Definition getLogBuffer (k : Kernel) : list KernelEvent := logBuffer k.

(** [subscribe]: the callback is recorded and called with the state. *)
Definition subscribe (cb : nat) (k : Kernel) : Kernel :=
  mkKernel (state k) (eventStore k) (logBuffer k)
    (if bool_decide (cb ∈ subscribers k) then subscribers k
     else subscribers k ++ [cb])
    (delivered k ++ [(cb, state k)]).

(** [loadSafetyRegistry] *)
Definition loadSafetyRegistry (registry : gmap string SafetyProfile)
    (k : Kernel) : Kernel :=
  with_state (set_safetyRegistry registry (state k)) k.

(** [ingestObservation] *)
Definition ingestObservation (obs : Observation) (k : Kernel) : Kernel :=
  with_state (set_lastObservation (Some obs) (state k)) k.

(** States of the kernel that its public surface can produce. *)
Inductive reachable : Kernel -> Prop :=
  | reach_construct fuel env k :
      construct fuel env = Some k -> reachable k
  | reach_dispatch fuel env k intention k' :
      reachable k -> dispatch fuel env k intention = Some k' -> reachable k'
  | reach_subscribe cb k :
      reachable k -> reachable (subscribe cb k)
  | reach_loadSafetyRegistry registry k :
      reachable k -> reachable (loadSafetyRegistry registry k)
  | reach_ingestObservation obs k :
      reachable k -> reachable (ingestObservation obs k).

End Kernel.

Arguments getInitialState _ : clear implicits.
Arguments notify {Store} _.
Arguments handleTick {Store} _ _ _ _ _ _.
Arguments reduce {Store} _ _ _ _ _ _ _.
Arguments dispatch {Store} _ _ _ _ _ _ _ _ : simpl never.
Arguments construct {Store} _ _ _ _ _ _ _.
Arguments logged {Store} _ _ _.
Arguments append_all {Store} _ _ _.
Arguments durability_before_effect {Store} _ _ _ _ _ _ _ _.
Arguments cycleCount_only_reset_by_load {Store} _ _ _ _ _ _ _ _.
Arguments getState {Store} _.
Arguments getLogBuffer {Store} _.
Arguments subscribe {Store} _ _.
Arguments loadSafetyRegistry {Store} _ _.
Arguments ingestObservation {Store} _ _.
Arguments reachable {Store} _ _ _ _ _ _.

(** Two dispatches, over stores that need not be the same, end in the
    same state. *)
Definition same_outcome {Store1 Store2 : Type}
    (o1 : option (ZenBKernel Store1)) (o2 : option (ZenBKernel Store2)) : Prop :=
  match o1, o2 with
  | Some k1, Some k2 => state k1 = state k2
  | None, None => True
  | _, _ => False
  end.

(** ** A concrete set of collaborators *)

Module Sample.

(** Modelled from the spec: the phase sequencer of [./phaseMachine], a
    collaborator whose code lies outside this development.  The spec:
    the next phase in the fixed order inhale, holdIn, exhale, holdOut,
    inhale, ..., skipping any phase whose configured duration is not
    positive, with a deterministic answer when every duration is zero; a
    phase is a cycle boundary exactly when it is inhale. *)
Definition successor (p : BreathPhase) : BreathPhase :=
  match p with
  | inhale => holdIn
  | holdIn => exhale
  | exhale => holdOut
  | holdOut => inhale
  end.

(** Modelled from the spec: the first phase from [p] on, in cycle order,
    with a positive duration; after [n] phases without one, the phase
    reached. *)
Fixpoint skipZero (n : nat) (p : BreathPhase) (pat : BreathPattern) : BreathPhase :=
  match n with
  | O => p
  | S n' =>
      if Qgtb (timing_of (timings pat) p) 0 then p
      else skipZero n' (successor p) pat
  end.

(** Modelled from the spec: [nextPhaseSkipZero] of [./phaseMachine]. *)
Definition nextPhaseSkipZero (p : BreathPhase) (pat : BreathPattern) : BreathPhase :=
  skipZero 4 (successor p) pat.

(** Modelled from the spec: [isCycleBoundary] of [./phaseMachine]. *)
Definition isCycleBoundary (p : BreathPhase) : bool := bool_decide (p = inhale).

(** An event store that keeps what it is given, and one whose backend
    refuses every write. *)
Definition append_ok (e : KernelEvent) (st : list KernelEvent)
    : AppendResult * list KernelEvent := (AppendOk, st ++ [e]).

Definition append_failing (e : KernelEvent) (st : list KernelEvent)
    : AppendResult * list KernelEvent := (StorageError, st).

(** A catalogue with two patterns. *)
Definition box : BreathPattern := mkBreathPattern "box" (mkTimings 4 4 4 4).
Definition relax : BreathPattern := mkBreathPattern "4-7-8" (mkTimings 4 7 8 0).

Definition BREATHING_PATTERNS : gmap string BreathPattern :=
  <["box"%string := box]> (<["4-7-8"%string := relax]> ∅).

(** The kernel code over the store that refuses every write, and over
    the one that keeps them. *)
Definition dispatch_unsaved :=
  dispatch append_failing BREATHING_PATTERNS nextPhaseSkipZero isCycleBoundary.
Definition dispatch :=
  dispatch append_ok BREATHING_PATTERNS nextPhaseSkipZero isCycleBoundary.
Definition construct := construct [] append_ok BREATHING_PATTERNS nextPhaseSkipZero isCycleBoundary.
Definition reachable := reachable [] append_ok BREATHING_PATTERNS nextPhaseSkipZero isCycleBoundary.

(** Runs a list of intentions, each with its environment. *)
Fixpoint run (fuel : nat) (k : ZenBKernel (list KernelEvent))
    (es : list (Env * KernelEvent)) : option (ZenBKernel (list KernelEvent)) :=
  match es with
  | [] => Some k
  | (env, e) :: es' => k' ← dispatch fuel env k e; run fuel k' es'
  end.

Definition visible (t : Q) : Env := mkEnv t false.
Definition hidden (t : Q) : Env := mkEnv t true.

(** A kernel before its boot event. *)
Definition blank : ZenBKernel (list KernelEvent) :=
  mkKernel (getInitialState (visible 0)) [] [] [] [].

(** A session on the box pattern, watched by nobody: three ticks of four
    seconds each with the page hidden. *)
Definition hidden_session : list (Env * KernelEvent) :=
  [(visible 1, LOAD_PROTOCOL "box" 1);
   (visible 2, START_SESSION 2);
   (hidden 3, TICK 4 3);
   (hidden 4, TICK 4 4);
   (hidden 5, TICK 4 5)].

(** The kernel at the end of that session: running, at the start of a
    four-second phase, twelve seconds in, with a prediction error of 0.98. *)
Definition crossing_kernel : ZenBKernel (list KernelEvent) :=
  Eval vm_compute in
    default blank (k0 ← construct 2 (visible 0); run 2 k0 hidden_session).

(** One more tick: the guard locks the kernel. *)
Definition locked_kernel : ZenBKernel (list KernelEvent) :=
  Eval vm_compute in
    default blank (dispatch 2 (hidden 6) crossing_kernel (TICK 0.1 6)).

(** A session on the box pattern with the page in view: four ticks of
    four seconds, one full cycle. *)
Definition full_cycle : list (Env * KernelEvent) :=
  [(visible 1, LOAD_PROTOCOL "box" 1);
   (visible 2, START_SESSION 2);
   (visible 3, TICK 4 3);
   (visible 4, TICK 4 4);
   (visible 5, TICK 4 5);
   (visible 6, TICK 4 6)].

(** The kernel at the end of it: one cycle counted. *)
Definition counted_kernel : ZenBKernel (list KernelEvent) :=
  Eval vm_compute in
    default blank (k0 ← construct 2 (visible 0); run 2 k0 full_cycle).

(** A session on the box pattern, paused right after its start. *)
Definition paused_kernel : ZenBKernel (list KernelEvent) :=
  Eval vm_compute in
    default blank
      (k0 ← construct 2 (visible 0);
       run 2 k0 [(visible 1, LOAD_PROTOCOL "box" 1);
                 (visible 2, START_SESSION 2);
                 (visible 3, INTERRUPTION "pause" 3)]).

(** A registry that locks the box pattern until time 100. *)
Definition box_locked : gmap string SafetyProfile :=
  <["box"%string := mkSafetyProfile 100]> ∅.

(** A kernel before its boot event, with that registry loaded. *)
Definition guarded_kernel : ZenBKernel (list KernelEvent) :=
  loadSafetyRegistry box_locked blank.

(** A session that has just started on the box pattern. *)
Definition started_kernel : ZenBKernel (list KernelEvent) :=
  Eval vm_compute in
    default blank
      (k0 ← construct 2 (visible 0);
       run 2 k0 [(visible 1, LOAD_PROTOCOL "box" 1);
                 (visible 2, START_SESSION 2)]).

End Sample.

(** ** References and snapshots

    [getState], [subscribe] and [notify] hand objects to code outside the
    kernel.  Whether such a caller can reach the kernel's own state
    depends on which object it is handed, so these three methods are
    embedded a second time over a heap of objects: an object is a finite
    map from property names to values, a value may be a reference to
    another object, and [{ ...o }] allocates a new object with the
    properties of [o] (nested objects stay shared). *)

Module Aliasing.

Definition loc : Type := positive.

Inductive Value : Type :=
  | VNum (q : Q)
  | VStr (s : string)
  | VNull
  | VRef (l : loc).

Abbreviation Obj := (gmap string Value).
Abbreviation Heap := (gmap loc Obj).

(** An object literal or a spread: a new object at an unused address. *)
Definition alloc (o : Obj) (h : Heap) : loc * Heap :=
  let l := fresh (dom h) in (l, <[l := o]> h).

(** [r.f] *)
Definition get_field (h : Heap) (r : loc) (f : string) : option Value :=
  o ← h !! r; o !! f.

(** [r.f = v] *)
Definition set_field (r : loc) (f : string) (v : Value) (h : Heap) : Heap :=
  alter (insert f v) r h.

(** [r.f.g = v] *)
Definition set_nested (r : loc) (f g : string) (v : Value) (h : Heap) : Heap :=
  match get_field h r f with
  | Some (VRef r') => set_field r' g v h
  | _ => h
  end.

(** [{ ...r }] *)
Definition spread (r : loc) (h : Heap) : loc * Heap :=
  alloc (default ∅ (h !! r)) h.

(** A subscriber: code that runs on the heap with the reference it is
    called with. *)
Definition Callback : Type := loc -> Heap -> Heap.

Record KernelObj : Type := mkKernelObj {
  this_state : loc;
  this_subscribers : list Callback
}.

Definition status_name (s : Status) : string :=
  match s with
  | IDLE => "IDLE"
  | RUNNING => "RUNNING"
  | PAUSED => "PAUSED"
  | HALTED => "HALTED"
  | SAFETY_LOCK => "SAFETY_LOCK"
  end.

(** [getInitialState]: the object literal, with its nested literals. *)
Definition getInitialState (env : Env) (h : Heap) : loc * Heap :=
  let '(belief, h) :=
    alloc (list_to_map
             [("arousal"%string, VNum 0.5); ("attention"%string, VNum 0.5);
              ("rhythm_alignment"%string, VNum 0);
              ("prediction_error"%string, VNum 0)]) h in
  let '(registry, h) := alloc ∅ h in
  alloc (list_to_map
           [("status"%string, VStr (status_name IDLE));
            ("bootTimestamp"%string, VNum (now env));
            ("pattern"%string, VNull);
            ("phase"%string, VStr "inhale");
            ("phaseElapsed"%string, VNum 0);
            ("phaseDuration"%string, VNum 0);
            ("cycleCount"%string, VNum 0);
            ("sessionDuration"%string, VNum 0);
            ("belief"%string, VRef belief);
            ("lastObservation"%string, VNull);
            ("safetyRegistry"%string, VRef registry)]) h.

(** The constructor, up to the boot event (which writes [IDLE] over the
    [IDLE] of the initial state). *)
Definition construct (env : Env) : KernelObj * Heap :=
  let '(st, h) := getInitialState env ∅ in
  (mkKernelObj st [], h).

(** [getState() { return this.state; }] *)
Definition getState (k : KernelObj) : loc := this_state k.

(** [subscribe(cb)]: [this.subscribers.add(cb); cb(this.state)] *)
Definition subscribe (cb : Callback) (k : KernelObj) (h : Heap)
    : KernelObj * Heap :=
  (mkKernelObj (this_state k) (this_subscribers k ++ [cb]),
   cb (this_state k) h).

(** [notify()]: [this.subscribers.forEach(cb => cb({ ...this.state }))] *)
Definition notify (k : KernelObj) (h : Heap) : Heap :=
  foldl (fun h cb => let '(snapshot, h') := spread (this_state k) h in
                     cb snapshot h')
        h (this_subscribers k).

(** Two callers that write to what they are given. *)
Definition overwrite_status (s : Status) : Callback :=
  fun r h => set_field r "status" (VStr (status_name s)) h.

Definition overwrite_attention (v : Q) : Callback :=
  fun r h => set_nested r "belief" "attention" (VNum v) h.

(** What the kernel reads back from its own state. *)
Definition kernel_status (k : KernelObj) (h : Heap) : option Value :=
  get_field h (this_state k) "status".

Definition kernel_attention (k : KernelObj) (h : Heap) : option Value :=
  match get_field h (this_state k) "belief" with
  | Some (VRef b) => get_field h b "attention"
  | _ => None
  end.

(** A new kernel, and the same kernel with one subscriber on record. *)
Definition new_kernel : KernelObj * Heap := construct (mkEnv 0 false).

Definition watched_by (cb : Callback) : KernelObj * Heap :=
  (mkKernelObj (this_state new_kernel.1) [cb], new_kernel.2).

End Aliasing.

(** ** Statements about the controller *)

Module ControllerSpec.
Import FreeEnergyController.

(** The two clamped coordinates of a belief lie in the unit interval. *)
Definition bounded (b : BeliefState) : Prop :=
  (0 <= attention b <= 1) /\ (0 <= rhythm_alignment b <= 1).

(** The time step the clock driver allows. *)
Definition dt_ok (obs : Observation) : Prop :=
  0 <= delta_time obs <= 0.1.

(** A run of the controller over a sequence of observations, each with
    the pattern active at the time. *)
Definition update_all (b : BeliefState)
    (steps : list (Observation * option BreathPattern)) : BeliefState :=
  foldl (fun b step => update b (fst step) (snd step)) b steps.

(** The observation of arousal in the words of the specification: the
    heart rate grounds it whenever [heart_rate] is present and
    [hr_confidence > 0.6]. *)
Definition spec_observed_arousal (b : BeliefState) (obs : Observation) : Q :=
  match heart_rate obs, hr_confidence obs with
  | Some hr, Some c =>
      if Qgtb c 0.6
      then arousal b * 0.9 + Qmin 1 (Qmax 0 ((hr - 50) / 70)) * 0.1
      else arousal b
  | _, _ => arousal b
  end.

Definition spec_distracted (obs : Observation) : Prop :=
  user_interaction obs = Some "pause"%string
  \/ visibilty_state obs = "hidden"%string.

(** The prediction error in the words of the specification. *)
Definition spec_prediction_error (b : BeliefState) (obs : Observation) : Q :=
  0.4 * Qabs (spec_observed_arousal b obs - 0.3)
  + 0.6 * (if decide (spec_distracted obs) then 1 else 0)
  + 0.3 * (1 - rhythm_alignment b).

(** An observation whose heart rate reads zero, with a confident sensor. *)
Definition zero_rate_obs : Observation :=
  mkObservation 0 0.1 "visible" None (Some 0) (Some 0.9).

Definition prior_belief : BeliefState := mkBelief 0.5 0.5 0 0.

(** A frame of the clock driver at its cap of 0.1 s, in view and paused. *)
Definition frame_obs : Observation :=
  mkObservation 0 0.1 "visible" None (Some 72) (Some 0.9).

Definition paused_obs : Observation :=
  mkObservation 0 0.1 "visible" (Some "pause"%string) None None.

End ControllerSpec.

(** ** The driver: [useBreathEngine]

    The parts of the hook that compute: the cue of a phase, the progress
    shown for a state, the time step of the clock loop and the feeding of
    camera vitals into the kernel. *)

Module BreathEngine.

Inductive Cue : Type := cue_inhale | cue_exhale | cue_hold.

(** [phaseToCueType] *)
Definition phaseToCueType (phase : BreathPhase) : Cue :=
  match phase with
  | holdIn | holdOut => cue_hold
  | inhale => cue_inhale
  | exhale => cue_exhale
  end.

(** The subscriber's progress:
    [denom = Math.max(state.phaseDuration, 0.001)],
    [Math.max(0, Math.min(state.phaseElapsed / denom, 1))]. *)
Definition progress (state : RuntimeState) : Q :=
  let denom := Qmax (phaseDuration state) 0.001 in
  Qmax 0 (Qmin (phaseElapsed state / denom) 1).

(** The clock loop's time step:
    [Math.min((now - lastTime) / 1000, 0.1)], both times in milliseconds. *)
Definition tick_dt (now_ms lastTime : Q) : Q :=
  Qmin ((now_ms - lastTime) / 1000) 0.1.

(** [VitalSigns] as the hooks use it (the signal quality label is not
    read by the driver). *)
Record VitalSigns : Type := mkVitals {
  heartRate : Q;
  confidence : Q
}.

(** The observation the sensor effect builds from the vitals. *)
Definition vitals_observation (env : Env) (vitals : VitalSigns) : Observation :=
  {| obs_timestamp := now env;
     delta_time := 0;
     visibilty_state := "visible";
     user_interaction := None;
     heart_rate := Some (heartRate vitals);
     hr_confidence := Some (confidence vitals) |}.

(** The sensor effect: [if (vitals.confidence > 0.3)
    kernel.ingestObservation({...})]. *)
Definition feed_vitals {Store : Type} (env : Env) (vitals : VitalSigns)
    (k : ZenBKernel Store) : ZenBKernel Store :=
  if Qgtb (confidence vitals) 0.3
  then ingestObservation (vitals_observation env vitals) k
  else k.

(** Vitals read with a confidence between the two thresholds. *)
Definition faint_vitals : VitalSigns := mkVitals 72 0.5.

End BreathEngine.

(** ** Statements about the kernel *)

(** The observation that [handleTick] synthesizes (its step 1). *)
Definition synthesize (env : Env) (s : RuntimeState) (dt : Q) : Observation :=
  {| obs_timestamp := now env;
     delta_time := dt;
     visibilty_state := if document_hidden env then "hidden" else "visible";
     user_interaction :=
       if bool_decide (status s = PAUSED) then Some "pause"%string else None;
     heart_rate := o ← lastObservation s; heart_rate o;
     hr_confidence := o ← lastObservation s; hr_confidence o |}.

(** The state after the belief step and the physics step of a running
    tick, before any phase transition. *)
Definition advanced (env : Env) (s : RuntimeState) (dt : Q) : RuntimeState :=
  set_sessionDuration (sessionDuration s + dt)
    (set_phaseElapsed (phaseElapsed s + dt)
       (set_belief
          (FreeEnergyController.update (belief s) (synthesize env s dt) (pattern s))
          s)).

(** The status HALTED is declared and never taken. *)
Definition never_halted (s : RuntimeState) : Prop := status s <> HALTED.

(** A session that runs or is paused has a pattern. *)
Definition session_has_pattern (s : RuntimeState) : Prop :=
  status s = RUNNING \/ status s = PAUSED -> is_Some (pattern s).

(** With a pattern loaded, the phase duration is the pattern's timing of
    the current phase. *)
Definition duration_consistent (s : RuntimeState) : Prop :=
  forall p, pattern s = Some p ->
            phaseDuration s = timing_of (timings p) (phase s).

(** What no dispatch touches, and what it keeps once it holds. *)
Definition carried_over (s s' : RuntimeState) : Prop :=
  safetyRegistry s' = safetyRegistry s
  /\ lastObservation s' = lastObservation s
  /\ bootTimestamp s' = bootTimestamp s
  /\ (is_Some (pattern s) -> is_Some (pattern s'))
  /\ (never_halted s -> never_halted s')
  /\ (session_has_pattern s -> session_has_pattern s')
  /\ (duration_consistent s -> duration_consistent s').

(** What a step keeps of the kernel's bookkeeping: the subscribers, a
    log buffer within its capacity, and everything delivered so far. *)
Definition kept {Store : Type} (k k' : ZenBKernel Store) : Prop :=
  subscribers k' = subscribers k
  /\ (length (logBuffer k) <= 50 -> length (logBuffer k') <= 50)%nat
  /\ exists more, delivered k' = delivered k ++ more.

(** The three coordinates of a belief that are meant to be fractions. *)
Definition fractions (b : BeliefState) : Prop :=
  (0 <= arousal b <= 1)
  /\ (0 <= attention b <= 1)
  /\ (0 <= rhythm_alignment b <= 1).

(** * Properties *)

(** ** Numbers *)

Lemma Qgtb_true (a b : Q) : Qgtb a b = true <-> b < a.
Proof.
  unfold Qgtb. rewrite negb_true_iff, <- not_true_iff_false, Qle_bool_iff.
  split; [apply Qnot_le_lt | apply Qlt_not_le].
Qed.

Lemma Qgtb_false (a b : Q) : Qgtb a b = false <-> a <= b.
Proof.
  unfold Qgtb. rewrite negb_false_iff. apply Qle_bool_iff.
Qed.

Lemma Qmax_floor_bounds (x : Q) : x <= 1 -> 0 <= Qmax 0 x <= 1.
Proof.
  intros Hx. split.
  - apply Q.le_max_l.
  - apply Q.max_lub; [lra | exact Hx].
Qed.

Lemma Qmin_cap_bounds (x : Q) : 0 <= x -> 0 <= Qmin 1 x <= 1.
Proof.
  intros Hx. split.
  - apply Q.min_glb; [lra | exact Hx].
  - apply Q.le_min_l.
Qed.

(** ** The free-energy controller *)

Module ControllerFacts.
Import FreeEnergyController ControllerSpec.

Lemma update_bounded (b : BeliefState) (obs : Observation)
    (p : option BreathPattern) :
  bounded b -> dt_ok obs -> bounded (update b obs p).
Proof.
  intros [Ha Hr] Hdt. unfold dt_ok in Hdt. unfold bounded, update. simpl.
  destruct (isDistracted obs).
  - split; apply Qmax_floor_bounds; lra.
  - split; apply Qmin_cap_bounds; lra.
Qed.

Lemma update_all_bounded (steps : list (Observation * option BreathPattern)) :
  forall b : BeliefState,
    bounded b -> Forall (fun step => dt_ok (fst step)) steps ->
    bounded (update_all b steps).
Proof.
  induction steps as [|[obs p] steps IH]; intros b Hb Hall.
  - exact Hb.
  - apply Forall_cons in Hall as [Hobs Hrest].
    apply IH; [|exact Hrest].
    apply update_bounded; assumption.
Qed.

(** C7. For a belief whose attention and rhythm_alignment lie in [0,1],
    an observation whose delta_time lies in [0,0.1] and any pattern, the
    belief returned by [update] again has attention and rhythm_alignment
    in [0,1]; hence the same holds after any finite sequence of such
    updates. *)
Theorem belief_boundedness :
  forall (b : BeliefState) (obs : Observation) (p : option BreathPattern)
         (steps : list (Observation * option BreathPattern)),
    0 <= attention b <= 1 ->
    0 <= rhythm_alignment b <= 1 ->
    0 <= delta_time obs <= 0.1 ->
    Forall (fun step => 0 <= delta_time (fst step) <= 0.1) steps ->
    ((0 <= attention (update b obs p) <= 1)
     /\ (0 <= rhythm_alignment (update b obs p) <= 1))
    /\ ((0 <= attention (update_all b steps) <= 1)
        /\ (0 <= rhythm_alignment (update_all b steps) <= 1)).
Proof.
  intros b obs p steps Ha Hr Hdt Hall. split.
  - apply (update_bounded b obs p); [split; assumption | exact Hdt].
  - apply (update_all_bounded steps b); [split; assumption | exact Hall].
Qed.

(** *** The formula of the prediction error *)

Lemma isDistracted_spec (obs : Observation) :
  isDistracted obs = true <-> spec_distracted obs.
Proof.
  unfold isDistracted, spec_distracted.
  rewrite orb_true_iff, !bool_decide_eq_true. reflexivity.
Qed.

Lemma hr_usable_true (obs : Observation) (hr c : Q) :
  heart_rate obs = Some hr -> hr_confidence obs = Some c ->
  ~ hr == 0 -> 0.6 < c -> hr_usable obs = true.
Proof.
  intros Hhr Hc Hnz Hgt. unfold hr_usable. rewrite Hhr, Hc. simpl.
  assert (Qeq_bool hr 0 = false) as ->.
  { apply not_true_iff_false. rewrite Qeq_bool_iff. exact Hnz. }
  assert (Qeq_bool c 0 = false) as ->.
  { apply not_true_iff_false. rewrite Qeq_bool_iff. lra. }
  simpl. apply Qgtb_true. exact Hgt.
Qed.

Lemma prediction_error_formula (b : BeliefState) (obs : Observation)
    (p : option BreathPattern) :
  prediction_error (update b obs p)
  == 0.4 * Qabs (observed_arousal b obs - 0.3)
     + 0.6 * (if isDistracted obs then 1 else 0)
     + 0.3 * (1 - rhythm_alignment b).
Proof.
  unfold update, free_energy, expected_arousal. simpl.
  destruct (isDistracted obs); ring.
Qed.

(** C8, as stated, fails: a heart rate that is present and equal to 0 is
    not blended in, whatever the confidence. *)
Lemma prediction_error_zero_rate :
  ~ (prediction_error (update prior_belief zero_rate_obs None)
     == spec_prediction_error prior_belief zero_rate_obs).
Proof.
  vm_compute. discriminate.
Qed.

(** C8, amended. [update] takes as observed arousal
    [arousal*0.9 + clamp((heart_rate-50)/70, 0, 1)*0.1] whenever
    heart_rate is present and not zero and hr_confidence > 0.6, and
    [arousal] otherwise (heart_rate absent or zero, hr_confidence absent
    or at most 0.6); the returned prediction_error is
    [0.4*|observed_arousal - 0.3| + 0.6*(1 if distracted else 0)
     + 0.3*(1 - rhythm_alignment)], where distracted means
    user_interaction is "pause" or the visibility state is "hidden". *)
Theorem prediction_error_grounding :
  forall (b : BeliefState) (obs : Observation) (p : option BreathPattern),
    (forall hr c,
        heart_rate obs = Some hr -> ~ hr == 0 ->
        hr_confidence obs = Some c -> 0.6 < c ->
        observed_arousal b obs
        = arousal b * 0.9 + Qmin 1 (Qmax 0 ((hr - 50) / 70)) * 0.1)
    /\ ((heart_rate obs = None
         \/ (exists hr, heart_rate obs = Some hr /\ hr == 0)
         \/ hr_confidence obs = None
         \/ (exists c, hr_confidence obs = Some c /\ c <= 0.6)) ->
        observed_arousal b obs = arousal b)
    /\ prediction_error (update b obs p)
       == 0.4 * Qabs (observed_arousal b obs - 0.3)
          + 0.6 * (if isDistracted obs then 1 else 0)
          + 0.3 * (1 - rhythm_alignment b)
    /\ (isDistracted obs = true <-> spec_distracted obs).
Proof.
  intros b obs p. split; [|split; [|split]].
  - intros hr c Hhr Hnz Hc Hgt. unfold observed_arousal.
    rewrite (hr_usable_true obs hr c Hhr Hc Hnz Hgt), Hhr. reflexivity.
  - unfold observed_arousal, hr_usable.
    intros [Hn | [(hr & Hhr & Hz) | [Hn | (c & Hc & Hle)]]].
    + rewrite Hn. reflexivity.
    + rewrite Hhr. simpl.
      apply Qeq_bool_iff in Hz. rewrite Hz. reflexivity.
    + rewrite Hn. destruct (heart_rate obs); [|reflexivity].
      simpl. rewrite andb_false_r. reflexivity.
    + rewrite Hc. destruct (heart_rate obs); [|reflexivity].
      simpl. apply Qgtb_false in Hle. rewrite Hle, andb_false_r. reflexivity.
  - apply prediction_error_formula.
  - apply isDistracted_spec.
Qed.

End ControllerFacts.

(** ** The safety plane *)

Module GuardFacts.
Import SafetyPlane.

Lemma rule1_shape env state intention e :
  rule1 env state intention = Some e ->
  e = SAFETY_INTERDICTION 1.0 "REJECT_START" (now env).
Proof.
  unfold rule1. destruct intention; try discriminate.
  case_bool_decide; congruence.
Qed.

Lemma rule2_shape env state intention e :
  rule2 env state intention = Some e ->
  e = SAFETY_INTERDICTION 0.95 "EMERGENCY_DAMPENING" (now env).
Proof.
  unfold rule2. destruct intention; try discriminate.
  case_bool_decide; [|discriminate].
  destruct (_ && _); congruence.
Qed.

Lemma rule3_shape env state intention e :
  rule3 env state intention = Some e ->
  e = SAFETY_INTERDICTION 0.8 "PATTERN_LOCKED" (now env).
Proof.
  unfold rule3. destruct intention; try discriminate.
  destruct (_ !! _); [|discriminate].
  destruct (Qgtb _ _); congruence.
Qed.

Lemma intercept_shape env state intention e :
  intercept env state intention = Some e ->
  exists riskLevel action, e = SAFETY_INTERDICTION riskLevel action (now env).
Proof.
  unfold intercept.
  destruct (rule1 env state intention) eqn:H1.
  { intros [= <-]. apply rule1_shape in H1. eauto. }
  destruct (rule2 env state intention) eqn:H2.
  { intros [= <-]. apply rule2_shape in H2. eauto. }
  intros H3. apply rule3_shape in H3. eauto.
Qed.

(** The guard lets internal events through. *)
Lemma intercept_PHASE_TRANSITION env state from to ts :
  intercept env state (PHASE_TRANSITION from to ts) = None.
Proof. reflexivity. Qed.

Lemma intercept_CYCLE_COMPLETE env state count ts :
  intercept env state (CYCLE_COMPLETE count ts) = None.
Proof. reflexivity. Qed.

Lemma intercept_TICK_cutoff env state dt ts :
  status state = RUNNING ->
  0.95 < prediction_error (belief state) ->
  10 < sessionDuration state ->
  intercept env state (TICK dt ts)
  = Some (SAFETY_INTERDICTION 0.95 "EMERGENCY_DAMPENING" (now env)).
Proof.
  intros Hs Hpe Hsd. unfold intercept, rule1, rule2.
  rewrite bool_decide_eq_true_2 by exact Hs.
  apply Qgtb_true in Hpe, Hsd. rewrite Hpe, Hsd. reflexivity.
Qed.

Lemma intercept_TICK_pass env state dt ts :
  Qgtb (prediction_error (belief state)) 0.95
  && Qgtb (sessionDuration state) 10 = false ->
  intercept env state (TICK dt ts) = None.
Proof.
  intros H. unfold intercept, rule1, rule2, rule3. rewrite H.
  case_bool_decide; reflexivity.
Qed.

Lemma intercept_TICK_not_running env state dt ts :
  status state <> RUNNING ->
  intercept env state (TICK dt ts) = None.
Proof.
  intros H. unfold intercept, rule1, rule2, rule3.
  rewrite bool_decide_eq_false_2 by exact H. reflexivity.
Qed.

End GuardFacts.

(** ** The kernel *)

Section KernelFacts.

Context {Store : Type}.
Variable init_store : Store.
Variable append : KernelEvent -> Store -> AppendResult * Store.
Variable BREATHING_PATTERNS : gmap string BreathPattern.
Variable nextPhaseSkipZero : BreathPhase -> BreathPattern -> BreathPhase.
Variable isCycleBoundary : BreathPhase -> bool.

#[local] Abbreviation Kernel := (ZenBKernel Store).
#[local] Abbreviation dispatch' :=
  (dispatch append BREATHING_PATTERNS nextPhaseSkipZero isCycleBoundary).
#[local] Abbreviation reduce' :=
  (reduce BREATHING_PATTERNS nextPhaseSkipZero isCycleBoundary).
#[local] Abbreviation handleTick' :=
  (handleTick nextPhaseSkipZero isCycleBoundary).
#[local] Abbreviation logged' := (logged append).

Lemma dispatch_unfold fuel env k intention :
  dispatch' (S fuel) env k intention
  = let event :=
      default intention (SafetyPlane.intercept env (state k) intention) in
    k2 ← reduce' (dispatch' fuel env) env (logged' event k) event;
    Some (notify k2).
Proof. reflexivity. Qed.

(** C4. For every state and intention, [intercept] returns either
    nothing or an event of variant SAFETY_INTERDICTION, never another
    variant; it reads the state it is given and returns only the optional
    event, so that the state which [dispatch] goes on to reduce is the
    state the guard was handed. *)
Theorem guard_totality :
  forall (env : Env) (s : RuntimeState) (intention : KernelEvent),
    (SafetyPlane.intercept env s intention = None
     \/ exists riskLevel action timestamp,
          SafetyPlane.intercept env s intention
          = Some (SAFETY_INTERDICTION riskLevel action timestamp))
    /\ forall (fuel : nat) (k : Kernel),
         let event :=
           default intention
             (SafetyPlane.intercept env (state k) intention) in
         state (logged' event k) = state k
         /\ dispatch' (S fuel) env k intention
            = k2 ← reduce' (dispatch' fuel env) env (logged' event k) event;
              Some (notify k2).
Proof.
  intros env s intention. split.
  - destruct (SafetyPlane.intercept env s intention) as [e|] eqn:He.
    + right. apply GuardFacts.intercept_shape in He as (r & a & ->). eauto.
    + left. reflexivity.
  - intros fuel k. split; reflexivity.
Qed.

(** *** Nested dispatch *)

Lemma dispatch_PHASE_TRANSITION fuel env k from to ts :
  dispatch' (S fuel) env k (PHASE_TRANSITION from to ts)
  = Some (notify
            (with_state
               (let s := set_phaseElapsed 0 (set_phase to (state k)) in
                match pattern (state k) with
                | Some p => set_phaseDuration (timing_of (timings p) to) s
                | None => s
                end)
               (logged' (PHASE_TRANSITION from to ts) k))).
Proof.
  rewrite dispatch_unfold. simpl.
  destruct (pattern (state k)); reflexivity.
Qed.

Lemma dispatch_CYCLE_COMPLETE fuel env k count ts :
  dispatch' (S fuel) env k (CYCLE_COMPLETE count ts)
  = Some (notify (with_state (set_cycleCount count (state k))
                    (logged' (CYCLE_COMPLETE count ts) k))).
Proof. reflexivity. Qed.

(** What a tick leaves alone, whatever branch it takes: the status, and
    the cycle count up to the one cycle it may complete. *)
Lemma handleTick_frame fuel env k dt :
  exists k',
    handleTick' (dispatch' (S fuel) env) env k dt = Some k'
    /\ status (state k') = status (state k)
    /\ (cycleCount (state k') = cycleCount (state k)
        \/ cycleCount (state k') = cycleCount (state k) + 1).
Proof.
  unfold handleTick.
  destruct (negb _ && negb _); [eauto|].
  simpl. case_bool_decide; [|eauto].
  destruct (pattern (state k)) as [p|] eqn:Hp; [|eauto].
  destruct (Qle_bool _ _); [|eauto].
  rewrite dispatch_PHASE_TRANSITION. simpl.
  destruct (isCycleBoundary _).
  - rewrite dispatch_CYCLE_COMPLETE. eexists. split; [reflexivity|].
    simpl. rewrite Hp. simpl. split; [reflexivity | right; reflexivity].
  - eexists. split; [reflexivity|].
    simpl. rewrite Hp. simpl. split; [reflexivity | left; reflexivity].
Qed.

(** Every event but a tick is reduced without a nested dispatch. *)
Lemma reduce_leaf (self : Kernel -> KernelEvent -> option Kernel) env k event :
  (forall dt ts, event <> TICK dt ts) ->
  exists k', reduce' self env k event = Some k'.
Proof.
  intros Hnt. destruct event; simpl; try (eexists; reflexivity).
  - case_bool_decide; [eauto|]. destruct (_ !! _); eauto.
  - destruct (pattern _); eauto.
  - case_bool_decide; eauto.
  - case_bool_decide; eauto.
  - destruct (pattern _); eauto.
  - exfalso. eapply Hnt. reflexivity.
  - case_bool_decide; eauto.
Qed.

(** Two levels of nesting are all a dispatch ever needs. *)
Lemma dispatch_total fuel env k intention :
  exists k', dispatch' (S (S fuel)) env k intention = Some k'.
Proof.
  rewrite dispatch_unfold. simpl.
  set (event := default intention _).
  set (k1 := logged' event k).
  assert (exists k2, reduce' (dispatch' (S fuel) env) env k1 event = Some k2)
    as [k2 ->]; [|simpl; eauto].
  destruct event as [| | | | | | | |dt ts| |];
    try (apply reduce_leaf; intros; discriminate).
  destruct (handleTick_frame fuel env k1 dt) as (k' & Hk' & _). eauto.
Qed.

(** *** The high-entropy cutoff *)

(** C5. For a state that is RUNNING, with sessionDuration > 10 and
    belief.prediction_error > 0.95, dispatching a TICK makes the guard
    answer SAFETY_INTERDICTION with riskLevel 0.95 and action
    EMERGENCY_DAMPENING; that event, not the TICK, is handed to the event
    store, pushed on the log buffer and reduced, and the resulting status
    is SAFETY_LOCK. *)
Theorem high_entropy_cutoff :
  forall (fuel : nat) (env : Env) (k : Kernel) (dt ts : Q),
    status (state k) = RUNNING ->
    10 < sessionDuration (state k) ->
    0.95 < prediction_error (belief (state k)) ->
    let event := SAFETY_INTERDICTION 0.95 "EMERGENCY_DAMPENING" (now env) in
    SafetyPlane.intercept env (state k) (TICK dt ts) = Some event
    /\ exists k',
         dispatch' (S fuel) env k (TICK dt ts) = Some k'
         /\ eventStore k' = snd (append event (eventStore k))
         /\ logBuffer k' = take 50 (event :: logBuffer k)
         /\ state k' = set_status SAFETY_LOCK (state k)
         /\ status (state k') = SAFETY_LOCK.
Proof.
  intros fuel env k dt ts Hs Hsd Hpe event.
  pose proof (GuardFacts.intercept_TICK_cutoff env (state k) dt ts Hs Hpe Hsd)
    as Hi.
  split; [exact Hi|].
  rewrite dispatch_unfold, Hi. simpl.
  eexists. split; [reflexivity|]. simpl. repeat split.
Qed.

(** *** Ticks outside a session *)

(** C10. Reducing a TICK when the status is neither RUNNING nor PAUSED
    (that is IDLE, HALTED or SAFETY_LOCK) leaves the whole RuntimeState
    as it was, belief, phaseElapsed and sessionDuration included; the
    dispatch of such a tick pushes it on the log buffer and changes
    nothing in the state. *)
Theorem idle_tick_inert :
  forall (fuel : nat) (env : Env) (k : Kernel) (dt ts : Q)
         (self : Kernel -> KernelEvent -> option Kernel),
    status (state k) <> RUNNING ->
    status (state k) <> PAUSED ->
    reduce' self env k (TICK dt ts) = Some k
    /\ exists k',
         dispatch' (S fuel) env k (TICK dt ts) = Some k'
         /\ state k' = state k
         /\ logBuffer k' = take 50 (TICK dt ts :: logBuffer k).
Proof.
  intros fuel env k dt ts self Hr Hp.
  assert (forall (k0 : Kernel) self0,
             state k0 = state k ->
             reduce' self0 env k0 (TICK dt ts) = Some k0) as Hred.
  { intros k0 self0 Hk0. simpl. unfold handleTick. rewrite Hk0.
    rewrite !bool_decide_eq_false_2 by assumption. reflexivity. }
  split; [apply Hred; reflexivity|].
  rewrite dispatch_unfold.
  rewrite (GuardFacts.intercept_TICK_not_running env (state k) dt ts Hr).
  cbn [default]. rewrite Hred by reflexivity.
  eexists. split; [reflexivity|]. split; reflexivity.
Qed.

(** *** A tick across a phase boundary *)

Lemma guard_passes (s : RuntimeState) :
  ~ (0.95 < prediction_error (belief s) /\ 10 < sessionDuration s) ->
  Qgtb (prediction_error (belief s)) 0.95 && Qgtb (sessionDuration s) 10
  = false.
Proof.
  intros H. apply not_true_iff_false. intros Hb.
  apply andb_true_iff in Hb as [H1 H2].
  apply Qgtb_true in H1, H2. auto.
Qed.

(** C6, amended. For a state that is RUNNING with an active pattern,
    phaseElapsed 0 and phaseDuration 4, a dispatched TICK of dt 5 that
    the guard lets through (not both prediction_error > 0.95 and
    sessionDuration > 10) is followed by exactly one PHASE_TRANSITION,
    to the next phase, and, when that phase is the cycle boundary, by
    exactly one CYCLE_COMPLETE whose count is the previous cycleCount
    plus 1; these are all the events of that tick. *)
Theorem tick_crosses_phase :
  forall (fuel : nat) (env : Env) (k : Kernel) (p : BreathPattern) (ts : Q),
    status (state k) = RUNNING ->
    pattern (state k) = Some p ->
    phaseElapsed (state k) == 0 ->
    phaseDuration (state k) == 4 ->
    ~ (0.95 < prediction_error (belief (state k))
       /\ 10 < sessionDuration (state k)) ->
    let next := nextPhaseSkipZero (phase (state k)) p in
    let events :=
      crossing_events nextPhaseSkipZero isCycleBoundary env (state k) p 5 ts in
    exists k',
      dispatch' (S (S fuel)) env k (TICK 5 ts) = Some k'
      /\ eventStore k' = append_all append events (eventStore k)
      /\ logBuffer k' = take 50 (rev events ++ logBuffer k)
      /\ phase (state k') = next
      /\ cycleCount (state k')
         = (if isCycleBoundary next
            then cycleCount (state k) + 1
            else cycleCount (state k)).
Proof.
  intros fuel env k p ts Hs Hp He Hd Hguard next events.
  rewrite dispatch_unfold.
  rewrite (GuardFacts.intercept_TICK_pass env (state k) 5 ts
             (guard_passes (state k) Hguard)).
  cbn [default]. simpl. unfold handleTick. simpl.
  rewrite Hs, Hp. simpl.
  assert (Qle_bool (phaseDuration (state k)) (phaseElapsed (state k) + 5) = true)
    as ->.
  { apply Qle_bool_iff. rewrite He, Hd. lra. }
  rewrite dispatch_PHASE_TRANSITION. simpl.
  subst events. unfold crossing_events. fold next.
  destruct (isCycleBoundary next).
  - rewrite dispatch_CYCLE_COMPLETE. eexists. split; [reflexivity|].
    simpl. rewrite Hp. simpl. repeat split.
    rewrite !take_take. reflexivity.
  - eexists. split; [reflexivity|].
    simpl. rewrite Hp. simpl. repeat split.
    rewrite !take_take. reflexivity.
Qed.

(** *** What reaches the event store *)

Lemma handleTick_store fuel env k dt :
  exists k' rest,
    handleTick' (dispatch' (S fuel) env) env k dt = Some k'
    /\ eventStore k' = append_all append rest (eventStore k).
Proof.
  unfold handleTick.
  destruct (negb _ && negb _); [exists k, []; split; reflexivity|].
  simpl. case_bool_decide; [|eexists _, []; split; reflexivity].
  destruct (pattern (state k)) as [p|] eqn:Hp;
    [|eexists _, []; split; reflexivity].
  destruct (Qle_bool _ _); [|eexists _, []; split; reflexivity].
  rewrite dispatch_PHASE_TRANSITION. simpl.
  destruct (isCycleBoundary _).
  - rewrite dispatch_CYCLE_COMPLETE.
    eexists _, [_; _]. split; reflexivity.
  - eexists _, [_]. split; reflexivity.
Qed.

Lemma reduce_store fuel env k event :
  exists k' rest,
    reduce' (dispatch' (S fuel) env) env k event = Some k'
    /\ eventStore k' = append_all append rest (eventStore k).
Proof.
  destruct event; simpl;
    try (eexists _, []; split; reflexivity);
    try (case_bool_decide; eexists _, []; split; reflexivity);
    try (destruct (pattern (state k)); eexists _, []; split; reflexivity);
    try apply handleTick_store.
  case_bool_decide; [eexists _, []; split; reflexivity|].
  destruct (_ !! _); eexists _, []; split; reflexivity.
Qed.

(** The event that the guard settles on is appended first; what follows
    it are the events of the nested dispatches. *)
Lemma dispatch_store fuel env k intention :
  exists k' rest,
    dispatch' (S (S fuel)) env k intention = Some k'
    /\ eventStore k'
       = append_all append
           (default intention (SafetyPlane.intercept env (state k) intention)
            :: rest)
           (eventStore k).
Proof.
  rewrite dispatch_unfold. cbn zeta.
  destruct (reduce_store fuel env
              (logged' (default intention
                          (SafetyPlane.intercept env (state k) intention)) k)
              (default intention
                 (SafetyPlane.intercept env (state k) intention)))
    as (k2 & rest & -> & Hst).
  exists (notify k2), rest. split; [reflexivity|]. exact Hst.
Qed.

(** *** The cycle count *)

(** C9, amended. Across a dispatched event other than LOAD_PROTOCOL and
    CYCLE_COMPLETE the cycleCount never decreases (it stays, or a tick
    that completes a cycle raises it by one); a dispatched CYCLE_COMPLETE
    sets cycleCount to the count it carries, whatever that is; a
    dispatched LOAD_PROTOCOL leaves cycleCount or sets it to 0.  Every
    dispatch returns. *)
Theorem cycleCount_steps :
  forall (fuel : nat) (env : Env) (k : Kernel) (intention : KernelEvent),
    exists k',
      dispatch' (S (S fuel)) env k intention = Some k'
      /\ match intention with
         | LOAD_PROTOCOL _ _ =>
             cycleCount (state k') = cycleCount (state k)
             \/ cycleCount (state k') = 0
         | CYCLE_COMPLETE count _ =>
             cycleCount (state k') = count
         | _ =>
             cycleCount (state k) <= cycleCount (state k')
             /\ (cycleCount (state k') = cycleCount (state k)
                 \/ cycleCount (state k') = cycleCount (state k) + 1)
         end.
Proof.
  intros fuel env k intention.
  rewrite dispatch_unfold.
  destruct (SafetyPlane.intercept env (state k) intention) as [e|] eqn:Hi.
  - (* the guard overrides: the interdiction never touches the count *)
    pose proof (GuardFacts.intercept_shape _ _ _ _ Hi) as (r & a & ->).
    cbn [default]. simpl.
    exists (notify
              (if bool_decide (a = "EMERGENCY_DAMPENING"%string)
               then with_state (set_status SAFETY_LOCK (state k))
                      (logged' (SAFETY_INTERDICTION r a (now env)) k)
               else logged' (SAFETY_INTERDICTION r a (now env)) k)).
    split; [case_bool_decide; reflexivity|].
    assert (cycleCount
              (state (notify
                 (if bool_decide (a = "EMERGENCY_DAMPENING"%string)
                  then with_state (set_status SAFETY_LOCK (state k))
                         (logged' (SAFETY_INTERDICTION r a (now env)) k)
                  else logged' (SAFETY_INTERDICTION r a (now env)) k)))
            = cycleCount (state k)) as ->
      by (case_bool_decide; reflexivity).
    destruct intention; try (split; [lra | left; reflexivity]).
    + left. reflexivity.
    + rewrite GuardFacts.intercept_CYCLE_COMPLETE in Hi. discriminate Hi.
  - cbn [default].
    destruct intention as [| pid ? | | | | | | | dt ? | | ? a ?]; simpl.
    + eexists. split; [reflexivity|]. simpl. split; [lra | left; reflexivity].
    + case_bool_decide; [eexists; split; [reflexivity | left; reflexivity]|].
      destruct (BREATHING_PATTERNS !! pid);
        eexists; (split; [reflexivity|]); [right | left]; reflexivity.
    + destruct (pattern (state k));
        eexists; (split; [reflexivity|]); simpl; (split; [lra | left; reflexivity]).
    + case_bool_decide;
        eexists; (split; [reflexivity|]); simpl; (split; [lra | left; reflexivity]).
    + case_bool_decide;
        eexists; (split; [reflexivity|]); simpl; (split; [lra | left; reflexivity]).
    + eexists. split; [reflexivity|]. simpl. split; [lra | left; reflexivity].
    + destruct (pattern (state k));
        eexists; (split; [reflexivity|]); simpl; (split; [lra | left; reflexivity]).
    + eexists. split; [reflexivity|]. reflexivity.
    + destruct (handleTick_frame fuel env (logged' (TICK dt timestamp) k) dt)
        as (k' & -> & _ & Hc).
      eexists. split; [reflexivity|]. simpl in *.
      split; [|exact Hc].
      destruct Hc as [-> | ->]; lra.
    + eexists. split; [reflexivity|]. simpl. split; [lra | left; reflexivity].
    + case_bool_decide;
        eexists; (split; [reflexivity|]); simpl; (split; [lra | left; reflexivity]).
Qed.

(** *** The safety lock *)

(** HALT and BOOT write IDLE over whatever status they find. *)
Lemma halt_sets_idle fuel env k reason ts :
  exists k',
    dispatch' (S fuel) env k (HALT reason ts) = Some k'
    /\ status (state k') = IDLE.
Proof. eexists. split; reflexivity. Qed.

Lemma boot_sets_idle fuel env k ts :
  exists k',
    dispatch' (S fuel) env k (BOOT ts) = Some k'
    /\ status (state k') = IDLE.
Proof. eexists. split; reflexivity. Qed.

(** Every other event leaves a locked kernel locked. *)
Lemma lock_kept fuel env k intention :
  status (state k) = SAFETY_LOCK ->
  (forall reason ts, intention <> HALT reason ts) ->
  (forall ts, intention <> BOOT ts) ->
  exists k',
    dispatch' (S (S fuel)) env k intention = Some k'
    /\ status (state k') = SAFETY_LOCK.
Proof.
  intros Hs Hhalt Hboot.
  rewrite dispatch_unfold.
  destruct (SafetyPlane.intercept env (state k) intention) as [e|] eqn:Hi.
  - pose proof (GuardFacts.intercept_shape _ _ _ _ Hi) as (r & a & ->).
    cbn [default]. simpl.
    case_bool_decide; eexists; (split; [reflexivity|]); simpl; congruence.
  - cbn [default].
    destruct intention as [| pid ? | | | | | | | dt ? | | ? a ?]; simpl.
    + exfalso. eapply Hboot. reflexivity.
    + rewrite bool_decide_eq_true_2 by exact Hs.
      eexists. split; [reflexivity | exact Hs].
    + unfold SafetyPlane.intercept, SafetyPlane.rule1 in Hi.
      rewrite bool_decide_eq_true_2 in Hi by exact Hs. discriminate Hi.
    + rewrite bool_decide_eq_false_2 by congruence.
      eexists. split; [reflexivity | exact Hs].
    + rewrite bool_decide_eq_false_2 by congruence.
      eexists. split; [reflexivity | exact Hs].
    + exfalso. eapply Hhalt. reflexivity.
    + destruct (pattern (state k));
        eexists; (split; [reflexivity | exact Hs]).
    + eexists. split; [reflexivity | exact Hs].
    + destruct (handleTick_frame fuel env (logged' (TICK dt timestamp) k) dt)
        as (k' & -> & Hst & _).
      eexists. split; [reflexivity|]. simpl in *. congruence.
    + eexists. split; [reflexivity | exact Hs].
    + case_bool_decide; eexists; (split; [reflexivity|]); simpl; congruence.
Qed.

End KernelFacts.

(** ** The event store and the state *)

Section StoreIndependence.

Context {Store1 Store2 : Type}.
Variable append1 : KernelEvent -> Store1 -> AppendResult * Store1.
Variable append2 : KernelEvent -> Store2 -> AppendResult * Store2.
Variable BREATHING_PATTERNS : gmap string BreathPattern.
Variable nextPhaseSkipZero : BreathPhase -> BreathPattern -> BreathPhase.
Variable isCycleBoundary : BreathPhase -> bool.

#[local] Abbreviation dispatch1 :=
  (dispatch append1 BREATHING_PATTERNS nextPhaseSkipZero isCycleBoundary).
#[local] Abbreviation dispatch2 :=
  (dispatch append2 BREATHING_PATTERNS nextPhaseSkipZero isCycleBoundary).

Lemma same_outcome_some (k1 : ZenBKernel Store1) (k2 : ZenBKernel Store2) :
  state k1 = state k2 -> same_outcome (Some k1) (Some k2).
Proof. intros H. exact H. Qed.

Lemma same_outcome_bind
    (o1 : option (ZenBKernel Store1)) (o2 : option (ZenBKernel Store2))
    (f1 : ZenBKernel Store1 -> option (ZenBKernel Store1))
    (f2 : ZenBKernel Store2 -> option (ZenBKernel Store2)) :
  same_outcome o1 o2 ->
  (forall k1 k2, state k1 = state k2 -> same_outcome (f1 k1) (f2 k2)) ->
  same_outcome (o1 ≫= f1) (o2 ≫= f2).
Proof.
  intros Ho Hf. destruct o1 as [k1|], o2 as [k2|]; simpl in *;
    try contradiction; auto.
Qed.

Lemma handleTick_same_outcome self1 self2 env
    (k1 : ZenBKernel Store1) (k2 : ZenBKernel Store2) dt :
  (forall k1 k2 e, state k1 = state k2 ->
     same_outcome (self1 k1 e) (self2 k2 e)) ->
  state k1 = state k2 ->
  same_outcome
    (handleTick nextPhaseSkipZero isCycleBoundary self1 env k1 dt)
    (handleTick nextPhaseSkipZero isCycleBoundary self2 env k2 dt).
Proof.
  intros Hself Hk. unfold handleTick. rewrite <- Hk.
  destruct (negb _ && negb _); [exact Hk|].
  simpl. case_bool_decide; [|reflexivity].
  destruct (pattern (state k1)) as [p|]; [|reflexivity].
  destruct (Qle_bool _ _); [|reflexivity].
  apply same_outcome_bind.
  - apply Hself. reflexivity.
  - intros k1' k2' Hk'. destruct (isCycleBoundary _); [|exact Hk'].
    rewrite Hk'. apply Hself. exact Hk'.
Qed.

Lemma reduce_same_outcome self1 self2 env
    (k1 : ZenBKernel Store1) (k2 : ZenBKernel Store2) event :
  (forall k1 k2 e, state k1 = state k2 ->
     same_outcome (self1 k1 e) (self2 k2 e)) ->
  state k1 = state k2 ->
  same_outcome
    (reduce BREATHING_PATTERNS nextPhaseSkipZero isCycleBoundary self1 env k1 event)
    (reduce BREATHING_PATTERNS nextPhaseSkipZero isCycleBoundary self2 env k2 event).
Proof.
  intros Hself Hk.
  destruct event; simpl; rewrite <- ?Hk;
    try reflexivity;
    try (case_bool_decide; first [exact Hk | reflexivity]);
    try (destruct (pattern (state k1)); first [exact Hk | reflexivity]);
    try (apply handleTick_same_outcome; assumption).
  case_bool_decide; [exact Hk|].
  destruct (_ !! _); first [exact Hk | reflexivity].
Qed.

Lemma dispatch_same_outcome fuel :
  forall env (k1 : ZenBKernel Store1) (k2 : ZenBKernel Store2) intention,
    state k1 = state k2 ->
    same_outcome (dispatch1 fuel env k1 intention)
                 (dispatch2 fuel env k2 intention).
Proof.
  induction fuel as [|fuel IH]; intros env k1 k2 intention Hk; [exact I|].
  unfold dispatch; fold dispatch1; fold dispatch2. cbn zeta.
  rewrite <- Hk.
  apply same_outcome_bind.
  - apply reduce_same_outcome; [|reflexivity].
    intros k1' k2' e Hk'. apply IH. exact Hk'.
  - intros k1' k2' Hk'. exact Hk'.
Qed.

(** C2, amended. For every dispatched event, [dispatch] hands the event
    (the guard's override if there is one) to the store's append and then
    applies the reducer without looking at what the append returned: the
    dispatch returns, and the RuntimeState it ends in is the same over a
    store whose append failed as over one whose append succeeded. *)
Theorem state_independent_of_store :
  forall (fuel : nat) (env : Env)
         (k1 : ZenBKernel Store1) (k2 : ZenBKernel Store2)
         (intention : KernelEvent),
    state k1 = state k2 ->
    let event :=
      default intention (SafetyPlane.intercept env (state k1) intention) in
    exists k1' k2' rest1 rest2,
      dispatch1 (S (S fuel)) env k1 intention = Some k1'
      /\ dispatch2 (S (S fuel)) env k2 intention = Some k2'
      /\ state k1' = state k2'
      /\ eventStore k1' = append_all append1 (event :: rest1) (eventStore k1)
      /\ eventStore k2' = append_all append2 (event :: rest2) (eventStore k2).
Proof.
  intros fuel env k1 k2 intention Hk event.
  destruct (dispatch_store append1 BREATHING_PATTERNS nextPhaseSkipZero
              isCycleBoundary fuel env k1 intention) as (k1' & rest1 & H1 & Hs1).
  destruct (dispatch_store append2 BREATHING_PATTERNS nextPhaseSkipZero
              isCycleBoundary fuel env k2 intention) as (k2' & rest2 & H2 & Hs2).
  exists k1', k2', rest1, rest2.
  split; [exact H1|]. split; [exact H2|].
  split; [|split; [exact Hs1 | subst event; rewrite Hk; exact Hs2]].
  pose proof (dispatch_same_outcome (S (S fuel)) env k1 k2 intention Hk) as H.
  rewrite H1, H2 in H. exact H.
Qed.

End StoreIndependence.

(** ** Concrete runs *)

Module SampleFacts.
Import Sample.

Lemma run_reachable (fuel : nat) (es : list (Env * KernelEvent)) :
  forall k k', reachable k -> run fuel k es = Some k' -> reachable k'.
Proof.
  induction es as [|[env e] es IH]; intros k k' Hk Hrun; simpl in Hrun.
  - congruence.
  - destruct (dispatch fuel env k e) as [k1|] eqn:Hd; [|discriminate].
    simpl in Hrun. apply (IH k1 k'); [|exact Hrun].
    unfold reachable in *. eapply reach_dispatch; [exact Hk | exact Hd].
Qed.

Lemma session_reachable (fuel : nat) (env : Env)
    (es : list (Env * KernelEvent)) (k : ZenBKernel (list KernelEvent)) :
  (k0 ← construct fuel env; run fuel k0 es) = Some k -> reachable k.
Proof.
  destruct (construct fuel env) as [k0|] eqn:Hc; [|discriminate].
  simpl. apply run_reachable.
  unfold reachable. eapply reach_construct. exact Hc.
Qed.


Lemma crossing_kernel_reachable : reachable crossing_kernel.
Proof.
  apply (session_reachable 2 (visible 0) hidden_session).
  vm_compute. reflexivity.
Qed.

Lemma counted_kernel_reachable : reachable counted_kernel.
Proof.
  apply (session_reachable 2 (visible 0) full_cycle).
  vm_compute. reflexivity.
Qed.

Lemma locked_kernel_reachable : reachable locked_kernel.
Proof.
  unfold reachable.
  eapply (reach_dispatch _ _ _ _ _ _ 2 (hidden 6) crossing_kernel (TICK 0.1 6)).
  - exact crossing_kernel_reachable.
  - vm_compute. reflexivity.
Qed.

(** C1. The claim is that a locked kernel stays locked under every
    dispatched event, HALT and BOOT included.  On the code, the kernel
    that the guard has just locked (a state the public surface reaches)
    is back to IDLE after a dispatched HALT, and after a dispatched BOOT. *)
Theorem safety_lock_left_by_halt :
  reachable locked_kernel
  /\ status (state locked_kernel) = SAFETY_LOCK
  /\ (exists k',
        dispatch 2 (visible 7) locked_kernel (HALT "cleanup" 7) = Some k'
        /\ status (state k') = IDLE)
  /\ (exists k',
        dispatch 2 (visible 7) locked_kernel (BOOT 7) = Some k'
        /\ status (state k') = IDLE).
Proof.
  split; [exact locked_kernel_reachable|].
  split; [reflexivity|].
  split; eexists; (split; [vm_compute; reflexivity | reflexivity]).
Qed.

(** C2, as stated, fails: over a store that refuses the write, a
    dispatched LOAD_PROTOCOL is reduced all the same. *)
Lemma unsaved_event_is_reduced :
  ~ durability_before_effect append_failing BREATHING_PATTERNS
      nextPhaseSkipZero isCycleBoundary 2 (visible 1) blank
      (LOAD_PROTOCOL "box" 1).
Proof.
  unfold durability_before_effect. intros H.
  specialize (H eq_refl).
  pose proof (H _ ltac:(vm_compute; reflexivity)) as Hs.
  vm_compute in Hs. discriminate Hs.
Qed.

(** C6, as stated, fails: the kernel is RUNNING on a pattern, at
    phaseElapsed 0 of a phase of 4 seconds, and the tick of 5 seconds is
    replaced by the guard; no PHASE_TRANSITION follows. *)
Lemma crossing_tick_intercepted :
  reachable crossing_kernel
  /\ status (state crossing_kernel) = RUNNING
  /\ pattern (state crossing_kernel) = Some box
  /\ phaseElapsed (state crossing_kernel) == 0
  /\ phaseDuration (state crossing_kernel) == 4
  /\ ~ (exists k',
          dispatch 2 (hidden 6) crossing_kernel (TICK 5 6) = Some k'
          /\ eventStore k'
             = append_all append_ok
                 (crossing_events nextPhaseSkipZero isCycleBoundary
                    (hidden 6) (state crossing_kernel) box 5 6)
                 (eventStore crossing_kernel)).
Proof.
  split; [exact crossing_kernel_reachable|].
  repeat (split; [reflexivity|]).
  intros (k' & Hd & He).
  vm_compute in Hd. injection Hd as <-.
  vm_compute in He. discriminate He.
Qed.

(** C9, as stated, fails: with the box pattern loaded and one cycle
    counted, a dispatched CYCLE_COMPLETE with count 0 brings cycleCount
    back to 0. *)
Lemma cycle_complete_resets_count :
  ~ cycleCount_only_reset_by_load append_ok BREATHING_PATTERNS
      nextPhaseSkipZero isCycleBoundary 2 (visible 7) counted_kernel
      (CYCLE_COMPLETE 0 7).
Proof.
  unfold cycleCount_only_reset_by_load. intros H.
  destruct (H ltac:(intros; discriminate) _ ltac:(vm_compute; reflexivity))
    as [Hle _].
  vm_compute in Hle. apply Hle. reflexivity.
Qed.

(** *** Instances of the theorems above *)

Lemma belief_boundedness_witness :
  ((0 <= attention (FreeEnergyController.update
                      ControllerSpec.prior_belief ControllerSpec.frame_obs None) <= 1)
   /\ (0 <= rhythm_alignment (FreeEnergyController.update
                      ControllerSpec.prior_belief ControllerSpec.frame_obs None) <= 1))
  /\ ((0 <= attention (ControllerSpec.update_all ControllerSpec.prior_belief
                         [(ControllerSpec.frame_obs, None);
                          (ControllerSpec.paused_obs, Some box)]) <= 1)
      /\ (0 <= rhythm_alignment (ControllerSpec.update_all ControllerSpec.prior_belief
                         [(ControllerSpec.frame_obs, None);
                          (ControllerSpec.paused_obs, Some box)]) <= 1)).
Proof.
  apply (ControllerFacts.belief_boundedness ControllerSpec.prior_belief
           ControllerSpec.frame_obs None
           [(ControllerSpec.frame_obs, None);
            (ControllerSpec.paused_obs, Some box)]).
  - simpl. lra.
  - simpl. lra.
  - simpl. lra.
  - repeat constructor; simpl; lra.
Defined.

Lemma prediction_error_grounding_witness :
  FreeEnergyController.observed_arousal ControllerSpec.prior_belief
    ControllerSpec.frame_obs
  = arousal ControllerSpec.prior_belief * 0.9
    + Qmin 1 (Qmax 0 ((72 - 50) / 70)) * 0.1.
Proof.
  refine (proj1 (ControllerFacts.prediction_error_grounding
                   ControllerSpec.prior_belief ControllerSpec.frame_obs None)
            72 0.9 eq_refl _ eq_refl eq_refl).
  intros H. vm_compute in H. discriminate H.
Defined.

Lemma high_entropy_cutoff_witness :
  status (state crossing_kernel) = RUNNING
  /\ 10 < sessionDuration (state crossing_kernel)
  /\ 0.95 < prediction_error (belief (state crossing_kernel))
  /\ exists k',
       dispatch 1 (hidden 6) crossing_kernel (TICK 0.1 6) = Some k'
       /\ logBuffer k'
          = take 50 (SAFETY_INTERDICTION 0.95 "EMERGENCY_DAMPENING" 6
                     :: logBuffer crossing_kernel)
       /\ status (state k') = SAFETY_LOCK.
Proof.
  assert (status (state crossing_kernel) = RUNNING) as Hs by reflexivity.
  assert (10 < sessionDuration (state crossing_kernel)) as Hsd by reflexivity.
  assert (0.95 < prediction_error (belief (state crossing_kernel))) as Hpe
    by reflexivity.
  split; [exact Hs|]. split; [exact Hsd|]. split; [exact Hpe|].
  destruct (high_entropy_cutoff append_ok BREATHING_PATTERNS nextPhaseSkipZero
              isCycleBoundary 0 (hidden 6) crossing_kernel 0.1 6 Hs Hsd Hpe)
    as (_ & k' & Hd & _ & Hlog & _ & Hst).
  exists k'. split; [exact Hd|]. split; [exact Hlog | exact Hst].
Defined.

Lemma idle_tick_inert_witness :
  status (state blank) <> RUNNING
  /\ status (state blank) <> PAUSED
  /\ exists k',
       dispatch 1 (visible 1) blank (TICK 0.1 1) = Some k'
       /\ state k' = state blank
       /\ logBuffer k' = take 50 (TICK 0.1 1 :: logBuffer blank).
Proof.
  assert (status (state blank) <> RUNNING) as Hr by discriminate.
  assert (status (state blank) <> PAUSED) as Hp by discriminate.
  split; [exact Hr|]. split; [exact Hp|].
  exact (proj2 (idle_tick_inert append_ok BREATHING_PATTERNS nextPhaseSkipZero
                  isCycleBoundary 0 (visible 1) blank 0.1 1
                  (fun _ _ => None) Hr Hp)).
Defined.

Lemma tick_crosses_phase_witness :
  status (state started_kernel) = RUNNING
  /\ pattern (state started_kernel) = Some box
  /\ phaseElapsed (state started_kernel) == 0
  /\ phaseDuration (state started_kernel) == 4
  /\ exists k',
       dispatch 2 (visible 3) started_kernel (TICK 5 3) = Some k'
       /\ eventStore k'
          = eventStore started_kernel
            ++ [TICK 5 3; PHASE_TRANSITION inhale holdIn 3]
       /\ phase (state k') = holdIn
       /\ cycleCount (state k') = cycleCount (state started_kernel).
Proof.
  assert (~ (0.95 < prediction_error (belief (state started_kernel))
             /\ 10 < sessionDuration (state started_kernel))) as Hg.
  { intros [H _]. vm_compute in H. discriminate H. }
  repeat (split; [reflexivity|]).
  destruct (tick_crosses_phase append_ok BREATHING_PATTERNS nextPhaseSkipZero
              isCycleBoundary 0 (visible 3) started_kernel box 3
              eq_refl eq_refl eq_refl eq_refl Hg)
    as (k' & Hd & Hstore & _ & Hph & Hcc).
  exists k'. split; [exact Hd|]. split; [exact Hstore|].
  split; [exact Hph | exact Hcc].
Defined.

Lemma state_independent_of_store_witness :
  state blank = state blank
  /\ exists k1' k2',
       dispatch 2 (visible 1) blank (LOAD_PROTOCOL "box" 1) = Some k1'
       /\ dispatch_unsaved 2 (visible 1) blank (LOAD_PROTOCOL "box" 1) = Some k2'
       /\ state k1' = state k2'.
Proof.
  split; [reflexivity|].
  destruct (state_independent_of_store append_ok append_failing
              BREATHING_PATTERNS nextPhaseSkipZero isCycleBoundary
              0 (visible 1) blank blank (LOAD_PROTOCOL "box" 1) eq_refl)
    as (k1' & k2' & _ & _ & H1 & H2 & Hs & _).
  exists k1', k2'. split; [exact H1|]. split; [exact H2 | exact Hs].
Defined.

End SampleFacts.

(** ** References handed out by the kernel *)

Module AliasingFacts.
Import Aliasing.

Lemma alloc_fresh (o : Obj) (h : Heap) : h !! (alloc o h).1 = None.
Proof.
  unfold alloc. simpl. apply not_elem_of_dom. apply is_fresh.
Qed.

Lemma get_field_set_field (h : Heap) (r : loc) (f : string) (v : Value) :
  is_Some (h !! r) -> get_field (set_field r f v h) r f = Some v.
Proof.
  intros [o Ho]. unfold get_field, set_field.
  rewrite lookup_alter_eq, Ho. simpl. apply lookup_insert_eq.
Qed.

Lemma get_field_set_field_other (h : Heap) (r r' : loc) (f g : string)
    (v : Value) :
  r <> r' -> get_field (set_field r f v h) r' g = get_field h r' g.
Proof.
  intros Hne. unfold get_field, set_field.
  rewrite lookup_alter_ne by exact Hne. reflexivity.
Qed.

(** [getState] returns the kernel's own state object: a write through
    the returned reference is a write to the kernel's state. *)
Lemma getState_is_live (k : KernelObj) (h : Heap) (s : Status) :
  is_Some (h !! this_state k) ->
  getState k = this_state k
  /\ kernel_status k (overwrite_status s (getState k) h)
     = Some (VStr (status_name s)).
Proof.
  intros Hk. split; [reflexivity|].
  unfold kernel_status, overwrite_status, getState.
  apply get_field_set_field. exact Hk.
Qed.

(** [subscribe] calls the new subscriber with the kernel's own state
    object. *)
Lemma subscribe_is_live (k : KernelObj) (h : Heap) (s : Status) :
  is_Some (h !! this_state k) ->
  kernel_status k (subscribe (overwrite_status s) k h).2
  = Some (VStr (status_name s)).
Proof.
  intros Hk. unfold kernel_status, subscribe, overwrite_status. simpl.
  apply get_field_set_field. exact Hk.
Qed.

(** [notify] calls a subscriber with a new object: a write to a property
    of the snapshot is not a write to the kernel's state. *)
Lemma notify_snapshot_is_new (k : KernelObj) (h : Heap) (s : Status) :
  this_subscribers k = [overwrite_status s] ->
  is_Some (h !! this_state k) ->
  kernel_status k (notify k h) = kernel_status k h.
Proof.
  intros Hsub Hk. unfold notify. rewrite Hsub. simpl.
  unfold overwrite_status, kernel_status.
  rewrite get_field_set_field_other.
  - unfold get_field. rewrite lookup_insert_ne; [reflexivity|].
    intros Heq. destruct Hk as [o Ho].
    pose proof (alloc_fresh (default ∅ (h !! this_state k)) h) as Hf.
    unfold alloc in Hf. simpl in Hf. rewrite Heq in Hf. congruence.
  - intros Heq. destruct Hk as [o Ho].
    pose proof (alloc_fresh (default ∅ (h !! this_state k)) h) as Hf.
    unfold alloc in Hf. simpl in Hf. rewrite Heq in Hf. congruence.
Qed.

(** C3. The claim is that every RuntimeState handed outward is a copy,
    so that a write by its receiver never reaches the kernel's state.  On
    the code, for a new kernel: [getState] returns the reference of the
    state object itself, and a write to its status through that reference
    is read back by the kernel; the immediate call of [subscribe] hands
    the same reference; [notify] hands a new object, a write to its status
    is not seen by the kernel, but its belief is the kernel's belief
    object and a write to belief.attention is read back by the kernel. *)
Theorem state_handed_out_by_reference :
  (getState new_kernel.1 = this_state new_kernel.1
   /\ kernel_status new_kernel.1 new_kernel.2 = Some (VStr "IDLE")
   /\ kernel_status new_kernel.1
        (overwrite_status RUNNING (getState new_kernel.1) new_kernel.2)
      = Some (VStr "RUNNING"))
  /\ kernel_status new_kernel.1
       (subscribe (overwrite_status RUNNING) new_kernel.1 new_kernel.2).2
     = Some (VStr "RUNNING")
  /\ kernel_status (watched_by (overwrite_status RUNNING)).1
       (notify (watched_by (overwrite_status RUNNING)).1
               (watched_by (overwrite_status RUNNING)).2)
     = Some (VStr "IDLE")
  /\ (kernel_attention new_kernel.1 new_kernel.2 = Some (VNum 0.5)
      /\ kernel_attention (watched_by (overwrite_attention 7)).1
           (notify (watched_by (overwrite_attention 7)).1
                   (watched_by (overwrite_attention 7)).2)
         = Some (VNum 7)).
Proof.
  repeat split; vm_compute; reflexivity.
Qed.

End AliasingFacts.

(** * Further properties *)

(** ** The controller: arousal and prediction error *)

Module ControllerMore.
Import FreeEnergyController.

Lemma normalized_hr_fraction (hr : Q) : 0 <= normalized_hr hr <= 1.
Proof.
  unfold normalized_hr. apply Qmin_cap_bounds. apply Q.le_max_l.
Qed.

Lemma observed_arousal_fraction (b : BeliefState) (obs : Observation) :
  0 <= arousal b <= 1 -> 0 <= observed_arousal b obs <= 1.
Proof.
  intros Ha. unfold observed_arousal.
  destruct (heart_rate obs) as [hr|]; [|exact Ha].
  destruct (hr_usable obs); [|exact Ha].
  pose proof (normalized_hr_fraction hr). lra.
Qed.

Lemma observed_arousal_unusable (b : BeliefState) (obs : Observation) :
  hr_usable obs = false -> observed_arousal b obs = arousal b.
Proof.
  intros H. unfold observed_arousal. rewrite H.
  destruct (heart_rate obs); reflexivity.
Qed.

Lemma arousal_update_aux (b : BeliefState) (obs : Observation)
    (p : option BreathPattern) :
  (0 <= arousal b <= 1 -> 0 <= delta_time obs <= 1 ->
   0 <= arousal (update b obs p) <= 1)
  /\ (hr_usable obs = false -> arousal (update b obs p) == arousal b).
Proof.
  split.
  - intros Ha Hdt. unfold update. simpl.
    pose proof (observed_arousal_fraction b obs Ha) as Ho.
    split; nra.
  - intros H. unfold update. simpl.
    rewrite (observed_arousal_unusable b obs H). ring.
Qed.


Lemma free_energy_bounds (b : BeliefState) (obs : Observation) :
  0 <= arousal b <= 1 -> 0 <= rhythm_alignment b <= 1 ->
  (if isDistracted obs
   then 0.6 <= free_energy b obs <= 1.18
   else 0 <= free_energy b obs <= 0.58).
Proof.
  intros Ha Hr. unfold free_energy, expected_arousal.
  pose proof (observed_arousal_fraction b obs Ha) as Ho.
  assert (0 <= Qabs (observed_arousal b obs - 0.3) <= 0.7) as Habs.
  { split; [apply Qabs_nonneg|]. apply Qabs_Qle_condition. lra. }
  destruct (isDistracted obs); lra.
Qed.

Lemma free_energy_bounds_visible (b : BeliefState) (obs : Observation) :
  0 <= arousal b <= 1 -> 0 <= rhythm_alignment b <= 1 ->
  isDistracted obs = false ->
  free_energy b obs <= 0.58.
Proof.
  intros Ha Hr Hd. pose proof (free_energy_bounds b obs Ha Hr) as H.
  rewrite Hd in H. apply H.
Qed.

(** X2. For a belief whose arousal and rhythm_alignment lie in [0,1],
    the prediction error that [update] returns lies in [0, 0.58] when the
    observation is not distracted and in [0.6, 1.18] when it is: without
    a distraction it stays below the guard's threshold of 0.95. *)
Theorem prediction_error_range :
  forall (b : BeliefState) (obs : Observation) (p : option BreathPattern),
    0 <= arousal b <= 1 ->
    0 <= rhythm_alignment b <= 1 ->
    (isDistracted obs = false ->
     0 <= prediction_error (update b obs p) <= 0.58)
    /\ (isDistracted obs = true ->
        0.6 <= prediction_error (update b obs p) <= 1.18).
Proof.
  intros b obs p Ha Hr.
  pose proof (free_energy_bounds b obs Ha Hr) as H.
  split; intros Hd; rewrite Hd in H; exact H.
Qed.

Lemma update_fractions (b : BeliefState) (obs : Observation)
    (p : option BreathPattern) :
  fractions b -> 0 <= delta_time obs <= 1 -> fractions (update b obs p).
Proof.
  intros (Ha & Hat & Hr) Hdt. unfold fractions.
  split; [exact (proj1 (arousal_update_aux b obs p) Ha Hdt)|].
  unfold update. simpl. destruct (isDistracted obs).
  - split; apply Qmax_floor_bounds; lra.
  - split; apply Qmin_cap_bounds; lra.
Qed.

End ControllerMore.

(** ** The guard's decision table *)

Module GuardMore.
Import SafetyPlane.

Lemma intercept_cases :
  forall (env : Env) (s : RuntimeState) (intention event : KernelEvent),
    intercept env s intention = Some event
    <-> ((exists ts, intention = START_SESSION ts)
         /\ status s = SAFETY_LOCK
         /\ event = SAFETY_INTERDICTION 1.0 "REJECT_START" (now env))
        \/ ((exists dt ts, intention = TICK dt ts)
            /\ status s = RUNNING
            /\ 0.95 < prediction_error (belief s)
            /\ 10 < sessionDuration s
            /\ event = SAFETY_INTERDICTION 0.95 "EMERGENCY_DAMPENING" (now env))
        \/ (exists patternId ts profile,
              intention = LOAD_PROTOCOL patternId ts
              /\ safetyRegistry s !! patternId = Some profile
              /\ now env < safety_lock_until profile
              /\ event = SAFETY_INTERDICTION 0.8 "PATTERN_LOCKED" (now env)).
Proof.
  intros env s intention event. split.
  - unfold intercept, rule1, rule2, rule3.
    destruct intention as [| pid ts | ts | | | | | | dt ts | |];
      try discriminate.
    + destruct (safetyRegistry s !! pid) as [profile|] eqn:Hp; [|discriminate].
      destruct (Qgtb _ _) eqn:Hg; [|discriminate].
      intros [= <-]. right. right. exists pid, ts, profile.
      apply Qgtb_true in Hg. auto.
    + case_bool_decide as Hs; [|discriminate].
      intros [= <-]. left. eauto.
    + case_bool_decide as Hs; [|discriminate].
      destruct (Qgtb (prediction_error _) _) eqn:H1; [|discriminate].
      destruct (Qgtb (sessionDuration _) _) eqn:H2; [|discriminate].
      intros [= <-]. right. left.
      apply Qgtb_true in H1, H2. eauto 10.
  - intros [((ts & ->) & Hs & ->)
           | [((dt & ts & ->) & Hs & Hpe & Hsd & ->)
             | (pid & ts & profile & -> & Hp & Hlock & ->)]].
    + unfold intercept, rule1. rewrite bool_decide_eq_true_2 by exact Hs.
      reflexivity.
    + apply GuardFacts.intercept_TICK_cutoff; assumption.
    + unfold intercept, rule1, rule2, rule3. rewrite Hp.
      apply Qgtb_true in Hlock. rewrite Hlock. reflexivity.
Qed.

(** X3. The guard overrides an intention in exactly three situations:
    START_SESSION while the status is SAFETY_LOCK (REJECT_START, risk 1.0);
    TICK while RUNNING with prediction_error > 0.95 and sessionDuration >
    10 (EMERGENCY_DAMPENING, risk 0.95); LOAD_PROTOCOL of a pattern whose
    safety profile is locked until a time after now (PATTERN_LOCKED, risk
    0.8).  Every other intention passes as it is. *)
Theorem intercept_decision :
  forall (env : Env) (s : RuntimeState) (intention event : KernelEvent),
    intercept env s intention = Some event
    <-> ((exists ts, intention = START_SESSION ts)
         /\ status s = SAFETY_LOCK
         /\ event = SAFETY_INTERDICTION 1.0 "REJECT_START" (now env))
        \/ ((exists dt ts, intention = TICK dt ts)
            /\ status s = RUNNING
            /\ 0.95 < prediction_error (belief s)
            /\ 10 < sessionDuration s
            /\ event = SAFETY_INTERDICTION 0.95 "EMERGENCY_DAMPENING" (now env))
        \/ (exists patternId ts profile,
              intention = LOAD_PROTOCOL patternId ts
              /\ safetyRegistry s !! patternId = Some profile
              /\ now env < safety_lock_until profile
              /\ event = SAFETY_INTERDICTION 0.8 "PATTERN_LOCKED" (now env)).
Proof.
  exact intercept_cases.
Qed.

Lemma intercept_LOAD_pass env s patternId ts :
  (forall profile, safetyRegistry s !! patternId = Some profile ->
                   safety_lock_until profile <= now env) ->
  intercept env s (LOAD_PROTOCOL patternId ts) = None.
Proof.
  intros H. unfold intercept, rule1, rule2, rule3.
  destruct (safetyRegistry s !! patternId) as [profile|]; [|reflexivity].
  specialize (H profile eq_refl). apply Qgtb_false in H. rewrite H.
  reflexivity.
Qed.

Lemma intercept_LOAD_cases env s patternId ts :
  intercept env s (LOAD_PROTOCOL patternId ts) = None
  \/ intercept env s (LOAD_PROTOCOL patternId ts)
     = Some (SAFETY_INTERDICTION 0.8 "PATTERN_LOCKED" (now env)).
Proof.
  unfold intercept, rule1, rule2, rule3.
  destruct (safetyRegistry s !! patternId) as [profile|]; [|left; reflexivity].
  destruct (Qgtb _ _); [right | left]; reflexivity.
Qed.

End GuardMore.

(** ** The kernel, event by event *)

Section KernelMore.

Context {Store : Type}.
Variable append : KernelEvent -> Store -> AppendResult * Store.
Variable BREATHING_PATTERNS : gmap string BreathPattern.
Variable nextPhaseSkipZero : BreathPhase -> BreathPattern -> BreathPhase.
Variable isCycleBoundary : BreathPhase -> bool.

#[local] Abbreviation Kernel := (ZenBKernel Store).
#[local] Abbreviation dispatch' :=
  (dispatch append BREATHING_PATTERNS nextPhaseSkipZero isCycleBoundary).
#[local] Abbreviation reduce' :=
  (reduce BREATHING_PATTERNS nextPhaseSkipZero isCycleBoundary).
#[local] Abbreviation handleTick' :=
  (handleTick nextPhaseSkipZero isCycleBoundary).
#[local] Abbreviation logged' := (logged append).
#[local] Abbreviation dispatch_unfold' :=
  (dispatch_unfold append BREATHING_PATTERNS nextPhaseSkipZero isCycleBoundary).

(** *** Lockout *)

Lemma start_rejected :
  forall (fuel : nat) (env : Env) (k : Kernel) (ts : Q),
    status (state k) = SAFETY_LOCK ->
    let event := SAFETY_INTERDICTION 1.0 "REJECT_START" (now env) in
    exists k',
      dispatch' (S fuel) env k (START_SESSION ts) = Some k'
      /\ state k' = state k
      /\ eventStore k' = snd (append event (eventStore k))
      /\ logBuffer k' = take 50 (event :: logBuffer k).
Proof.
  intros fuel env k ts Hs event.
  rewrite dispatch_unfold'.
  unfold SafetyPlane.intercept, SafetyPlane.rule1.
  rewrite bool_decide_eq_true_2 by exact Hs.
  eexists. split; [reflexivity|]. repeat split.
Qed.

(** X4. While the status is SAFETY_LOCK, a dispatched START_SESSION is
    replaced by SAFETY_INTERDICTION with action REJECT_START and risk
    1.0: that event is stored and logged, and the RuntimeState is left
    exactly as it was. *)
Theorem start_rejected_when_locked :
  forall (fuel : nat) (env : Env) (k : Kernel) (ts : Q),
    status (state k) = SAFETY_LOCK ->
    let event := SAFETY_INTERDICTION 1.0 "REJECT_START" (now env) in
    exists k',
      dispatch' (S fuel) env k (START_SESSION ts) = Some k'
      /\ state k' = state k
      /\ eventStore k' = snd (append event (eventStore k))
      /\ logBuffer k' = take 50 (event :: logBuffer k).
Proof.
  exact start_rejected.
Qed.

(** *** Loading a protocol *)

Lemma load_no_op :
  forall (fuel : nat) (env : Env) (k : Kernel) (patternId : string) (ts : Q),
    BREATHING_PATTERNS !! patternId = None
    \/ status (state k) = SAFETY_LOCK
    \/ (exists profile,
          safetyRegistry (state k) !! patternId = Some profile
          /\ now env < safety_lock_until profile) ->
    exists k',
      dispatch' (S fuel) env k (LOAD_PROTOCOL patternId ts) = Some k'
      /\ state k' = state k.
Proof.
  intros fuel env k pid ts H.
  rewrite dispatch_unfold'.
  destruct (GuardMore.intercept_LOAD_cases env (state k) pid ts) as [Hi | Hi];
    rewrite Hi; cbn [default].
  - simpl. destruct H as [Hn | [Hs | (profile & Hp & Hlock)]].
    + case_bool_decide; [eexists; split; reflexivity|].
      rewrite Hn. eexists; split; reflexivity.
    + rewrite bool_decide_eq_true_2 by exact Hs. eexists; split; reflexivity.
    + exfalso.
      assert (SafetyPlane.intercept env (state k) (LOAD_PROTOCOL pid ts)
              = Some (SAFETY_INTERDICTION 0.8 "PATTERN_LOCKED" (now env))) as Hf.
      { apply GuardMore.intercept_cases. right. right. eauto 10. }
      congruence.
  - eexists. split; reflexivity.
Qed.

(** X5. A dispatched LOAD_PROTOCOL leaves the RuntimeState exactly as it
    was when the pattern id is not in the catalogue, or the status is
    SAFETY_LOCK, or the safety registry locks the pattern until a time
    after now. *)
Theorem load_refused :
  forall (fuel : nat) (env : Env) (k : Kernel) (patternId : string) (ts : Q),
    BREATHING_PATTERNS !! patternId = None
    \/ status (state k) = SAFETY_LOCK
    \/ (exists profile,
          safetyRegistry (state k) !! patternId = Some profile
          /\ now env < safety_lock_until profile) ->
    exists k',
      dispatch' (S fuel) env k (LOAD_PROTOCOL patternId ts) = Some k'
      /\ state k' = state k.
Proof.
  exact load_no_op.
Qed.

Lemma load_installs :
  forall (fuel : nat) (env : Env) (k : Kernel) (patternId : string) (ts : Q)
         (p : BreathPattern),
    status (state k) <> SAFETY_LOCK ->
    BREATHING_PATTERNS !! patternId = Some p ->
    (forall profile,
        safetyRegistry (state k) !! patternId = Some profile ->
        safety_lock_until profile <= now env) ->
    exists k',
      dispatch' (S fuel) env k (LOAD_PROTOCOL patternId ts) = Some k'
      /\ state k'
         = {| status := IDLE;
              bootTimestamp := bootTimestamp (state k);
              pattern := Some p;
              phase := inhale;
              phaseElapsed := 0;
              phaseDuration := t_inhale (timings p);
              cycleCount := 0;
              sessionDuration := 0;
              belief := {| arousal := arousal (belief (state k));
                           attention := attention (belief (state k));
                           rhythm_alignment := 0;
                           prediction_error := 0 |};
              lastObservation := lastObservation (state k);
              safetyRegistry := safetyRegistry (state k) |}
      /\ eventStore k'
         = snd (append (LOAD_PROTOCOL patternId ts) (eventStore k)).
Proof.
  intros fuel env k pid ts p Hs Hp Hlock.
  rewrite dispatch_unfold'.
  rewrite (GuardMore.intercept_LOAD_pass env (state k) pid ts Hlock).
  cbn [default]. simpl.
  rewrite bool_decide_eq_false_2 by exact Hs. rewrite Hp.
  eexists. split; [reflexivity|]. split; reflexivity.
Qed.

(** X6. Otherwise (status not SAFETY_LOCK, id in the catalogue, no lock
    in force) a dispatched LOAD_PROTOCOL installs the pattern at its
    first phase: phase inhale with the pattern's inhale timing,
    phaseElapsed, cycleCount and sessionDuration 0, status IDLE (a
    running session is stopped), rhythm_alignment and prediction_error 0;
    arousal and attention, the safety registry, the cached observation
    and the boot time are kept. *)
Theorem load_accepted :
  forall (fuel : nat) (env : Env) (k : Kernel) (patternId : string) (ts : Q)
         (p : BreathPattern),
    status (state k) <> SAFETY_LOCK ->
    BREATHING_PATTERNS !! patternId = Some p ->
    (forall profile,
        safetyRegistry (state k) !! patternId = Some profile ->
        safety_lock_until profile <= now env) ->
    exists k',
      dispatch' (S fuel) env k (LOAD_PROTOCOL patternId ts) = Some k'
      /\ state k'
         = {| status := IDLE;
              bootTimestamp := bootTimestamp (state k);
              pattern := Some p;
              phase := inhale;
              phaseElapsed := 0;
              phaseDuration := t_inhale (timings p);
              cycleCount := 0;
              sessionDuration := 0;
              belief := {| arousal := arousal (belief (state k));
                           attention := attention (belief (state k));
                           rhythm_alignment := 0;
                           prediction_error := 0 |};
              lastObservation := lastObservation (state k);
              safetyRegistry := safetyRegistry (state k) |}
      /\ eventStore k'
         = snd (append (LOAD_PROTOCOL patternId ts) (eventStore k)).
Proof.
  exact load_installs.
Qed.

(** *** Pause and resume *)

Lemma set_status_same (s : RuntimeState) (v : Status) :
  status s = v -> set_status v s = s.
Proof. intros <-. destruct s. reflexivity. Qed.

Lemma set_status_twice (s : RuntimeState) (v w : Status) :
  set_status w (set_status v s) = set_status w s.
Proof. reflexivity. Qed.

(** X7. From a RUNNING state, INTERRUPTION followed by RESUME is a round
    trip: the first leaves the state PAUSED and otherwise as it was, the
    second gives back the RuntimeState from before the pause. *)
Theorem pause_resume_round_trip :
  forall (fuel : nat) (env env' : Env) (k : Kernel) (kind : string) (ts ts' : Q),
    status (state k) = RUNNING ->
    exists k1 k2,
      dispatch' (S fuel) env k (INTERRUPTION kind ts) = Some k1
      /\ state k1 = set_status PAUSED (state k)
      /\ dispatch' (S fuel) env' k1 (RESUME ts') = Some k2
      /\ state k2 = state k.
Proof.
  intros fuel env env' k kind ts ts' Hs.
  rewrite dispatch_unfold'. cbn [default]. simpl.
  rewrite bool_decide_eq_true_2 by exact Hs.
  eexists. eexists. split; [reflexivity|]. split; [reflexivity|].
  rewrite dispatch_unfold'. cbn [default]. simpl.
  split; [reflexivity|]. simpl.
  destruct (state k) as [st bt pat ph pe pd cc sd bel lo reg]; simpl in *.
  rewrite Hs. reflexivity.
Qed.

(** *** Ticks *)

(** X8. A tick dispatched while PAUSED runs the belief step only, with
    the pause read as a distraction: attention becomes
    max(0, attention - dt) and rhythm_alignment max(0, rhythm_alignment -
    0.5 dt); phase, phaseElapsed, sessionDuration, cycleCount and status
    stay, and the tick is the only event stored. *)
Theorem paused_tick :
  forall (fuel : nat) (env : Env) (k : Kernel) (dt ts : Q),
    status (state k) = PAUSED ->
    exists k',
      dispatch' (S fuel) env k (TICK dt ts) = Some k'
      /\ state k'
         = set_belief
             (FreeEnergyController.update (belief (state k))
                (synthesize env (state k) dt) (pattern (state k)))
             (state k)
      /\ attention (belief (state k'))
         = Qmax 0 (attention (belief (state k)) - 1.0 * dt)
      /\ rhythm_alignment (belief (state k'))
         = Qmax 0 (rhythm_alignment (belief (state k)) - 0.5 * dt)
      /\ eventStore k' = snd (append (TICK dt ts) (eventStore k)).
Proof.
  intros fuel env k dt ts Hs.
  rewrite dispatch_unfold'.
  rewrite GuardFacts.intercept_TICK_not_running by congruence.
  cbn [default]. simpl. unfold handleTick. simpl. rewrite Hs. simpl.
  eexists. split; [reflexivity|]. simpl.
  split; [unfold synthesize; rewrite Hs; reflexivity|].
  unfold FreeEnergyController.update, FreeEnergyController.isDistracted.
  simpl. repeat split.
Qed.

(** X9. A tick dispatched while RUNNING on a pattern, let through by the
    guard, that does not reach the end of the phase (phaseElapsed + dt <
    phaseDuration) advances phaseElapsed and sessionDuration by dt and
    runs the belief step; phase, phaseDuration and cycleCount stay and
    the tick is the only event stored. *)
Theorem running_tick_within_phase :
  forall (fuel : nat) (env : Env) (k : Kernel) (p : BreathPattern) (dt ts : Q),
    status (state k) = RUNNING ->
    pattern (state k) = Some p ->
    ~ (0.95 < prediction_error (belief (state k))
       /\ 10 < sessionDuration (state k)) ->
    phaseElapsed (state k) + dt < phaseDuration (state k) ->
    exists k',
      dispatch' (S fuel) env k (TICK dt ts) = Some k'
      /\ state k' = advanced env (state k) dt
      /\ eventStore k' = snd (append (TICK dt ts) (eventStore k)).
Proof.
  intros fuel env k p dt ts Hs Hp Hguard Hlt.
  rewrite dispatch_unfold'.
  rewrite (GuardFacts.intercept_TICK_pass env (state k) dt ts
             (guard_passes (state k) Hguard)).
  cbn [default]. simpl. unfold handleTick. simpl.
  rewrite Hs, Hp. simpl.
  assert (Qle_bool (phaseDuration (state k)) (phaseElapsed (state k) + dt)
          = false) as ->.
  { apply not_true_iff_false. rewrite Qle_bool_iff. lra. }
  eexists. split; [reflexivity|]. split; [|reflexivity].
  unfold advanced, synthesize. simpl. rewrite Hs. reflexivity.
Qed.

(** X10. A tick dispatched while RUNNING on a pattern, let through by
    the guard, that reaches the end of the phase (phaseDuration <=
    phaseElapsed + dt) moves to the next phase with phaseElapsed 0: the
    time beyond the end of the phase is not carried into the next one,
    while sessionDuration grows by the whole dt; phaseDuration becomes
    the pattern's timing of the next phase, cycleCount grows by one
    exactly when the next phase is the cycle boundary, and the events
    stored are the tick, the transition and, at a boundary, the completed
    cycle. *)
Theorem running_tick_crossing :
  forall (fuel : nat) (env : Env) (k : Kernel) (p : BreathPattern) (dt ts : Q),
    status (state k) = RUNNING ->
    pattern (state k) = Some p ->
    ~ (0.95 < prediction_error (belief (state k))
       /\ 10 < sessionDuration (state k)) ->
    phaseDuration (state k) <= phaseElapsed (state k) + dt ->
    let next := nextPhaseSkipZero (phase (state k)) p in
    exists k',
      dispatch' (S (S fuel)) env k (TICK dt ts) = Some k'
      /\ phase (state k') = next
      /\ phaseElapsed (state k') = 0
      /\ phaseDuration (state k') = timing_of (timings p) next
      /\ sessionDuration (state k') = sessionDuration (state k) + dt
      /\ cycleCount (state k')
         = (if isCycleBoundary next
            then cycleCount (state k) + 1
            else cycleCount (state k))
      /\ belief (state k') = belief (advanced env (state k) dt)
      /\ status (state k') = RUNNING
      /\ eventStore k'
         = append_all append
             (crossing_events nextPhaseSkipZero isCycleBoundary env
                (state k) p dt ts)
             (eventStore k).
Proof.
  intros fuel env k p dt ts Hs Hp Hguard Hle next.
  rewrite dispatch_unfold'.
  rewrite (GuardFacts.intercept_TICK_pass env (state k) dt ts
             (guard_passes (state k) Hguard)).
  cbn [default]. simpl. unfold handleTick. simpl.
  rewrite Hs, Hp. simpl.
  assert (Qle_bool (phaseDuration (state k)) (phaseElapsed (state k) + dt)
          = true) as -> by (apply Qle_bool_iff; exact Hle).
  rewrite dispatch_PHASE_TRANSITION. simpl.
  unfold crossing_events. fold next.
  destruct (isCycleBoundary next).
  - rewrite dispatch_CYCLE_COMPLETE. eexists. split; [reflexivity|].
    simpl. rewrite Hp. simpl. unfold advanced, synthesize. simpl.
    rewrite Hs. repeat split.
  - eexists. split; [reflexivity|].
    simpl. rewrite Hp. simpl. unfold advanced, synthesize. simpl.
    rewrite Hs. repeat split.
Qed.

End KernelMore.

(** ** Invariants of the kernel *)

Section KernelInvariants.

Context {Store : Type}.
Variable init_store : Store.
Variable append : KernelEvent -> Store -> AppendResult * Store.
Variable BREATHING_PATTERNS : gmap string BreathPattern.
Variable nextPhaseSkipZero : BreathPhase -> BreathPattern -> BreathPhase.
Variable isCycleBoundary : BreathPhase -> bool.

#[local] Abbreviation Kernel := (ZenBKernel Store).
#[local] Abbreviation dispatch' :=
  (dispatch append BREATHING_PATTERNS nextPhaseSkipZero isCycleBoundary).
#[local] Abbreviation reduce' :=
  (reduce BREATHING_PATTERNS nextPhaseSkipZero isCycleBoundary).
#[local] Abbreviation handleTick' :=
  (handleTick nextPhaseSkipZero isCycleBoundary).
#[local] Abbreviation logged' := (logged append).
#[local] Abbreviation reachable' :=
  (reachable init_store append BREATHING_PATTERNS nextPhaseSkipZero
     isCycleBoundary).
#[local] Abbreviation dispatch_unfold' :=
  (dispatch_unfold append BREATHING_PATTERNS nextPhaseSkipZero isCycleBoundary).
#[local] Abbreviation dispatch_total' :=
  (dispatch_total append BREATHING_PATTERNS nextPhaseSkipZero isCycleBoundary).

Ltac carried :=
  unfold carried_over, never_halted, session_has_pattern, duration_consistent;
  simpl; intuition (eauto; try congruence).

Lemma carried_over_refl (s : RuntimeState) : carried_over s s.
Proof. carried. Qed.

Lemma carried_over_trans (a b c : RuntimeState) :
  carried_over a b -> carried_over b c -> carried_over a c.
Proof.
  unfold carried_over. intros (H1 & H2 & H3 & H4 & H5 & H6 & H7)
                              (G1 & G2 & G3 & G4 & G5 & G6 & G7).
  repeat split; try congruence; auto.
Qed.

Lemma handleTick_carried_over
    (self : Kernel -> KernelEvent -> option Kernel) env k dt k' :
  (forall k e k', self k e = Some k' -> carried_over (state k) (state k')) ->
  handleTick' self env k dt = Some k' ->
  carried_over (state k) (state k').
Proof.
  intros Hself. unfold handleTick.
  destruct (negb _ && negb _); [intros [= <-]; apply carried_over_refl|].
  simpl.
  assert (forall b q1 q2,
             carried_over (state k)
               (set_sessionDuration q2
                  (set_phaseElapsed q1 (set_belief b (state k))))) as Hadv
    by (intros; carried).
  case_bool_decide; [|intros [= <-]; carried].
  destruct (pattern (state k)) as [p|] eqn:Hp; [|intros [= <-]; carried].
  destruct (Qle_bool _ _); [|intros [= <-]; apply Hadv].
  match goal with
  | |- context [self ?k0 ?e0] => destruct (self k0 e0) as [k1|] eqn:H1
  end; [|discriminate].
  simpl. apply Hself in H1. simpl in H1.
  assert (carried_over (state k) (state k1)) as Hk1
    by (eapply carried_over_trans; [apply Hadv | exact H1]).
  destruct (isCycleBoundary _); [|intros [= <-]; exact Hk1].
  intros H2. apply Hself in H2.
  eapply carried_over_trans; [exact Hk1 | exact H2].
Qed.

Lemma reduce_carried_over
    (self : Kernel -> KernelEvent -> option Kernel) env k event k' :
  (forall k e k', self k e = Some k' -> carried_over (state k) (state k')) ->
  reduce' self env k event = Some k' ->
  carried_over (state k) (state k').
Proof.
  intros Hself.
  destruct event as [| pid ? | | | | | ? to ? | | dt ? | | ? a ?]; simpl.
  - intros [= <-]. carried.
  - case_bool_decide; [intros [= <-]; carried|].
    destruct (_ !! _) as [p|]; intros [= <-]; carried.
  - destruct (pattern (state k)) eqn:Hp; intros [= <-]; carried.
  - case_bool_decide; intros [= <-]; carried.
  - case_bool_decide; intros [= <-]; carried.
  - intros [= <-]. carried.
  - destruct (pattern (state k)) eqn:Hp; intros [= <-]; carried.
  - intros [= <-]. carried.
  - apply handleTick_carried_over. exact Hself.
  - intros [= <-]. carried.
  - case_bool_decide; intros [= <-]; carried.
Qed.

Lemma dispatch_carried_over fuel :
  forall env k intention k',
    dispatch' fuel env k intention = Some k' ->
    carried_over (state k) (state k').
Proof.
  induction fuel as [|fuel IH]; intros env k intention k'; [discriminate|].
  rewrite dispatch_unfold'. cbn zeta.
  destruct (reduce' _ _ _ _) as [k2|] eqn:Hr; [|discriminate].
  intros [= <-]. simpl.
  apply reduce_carried_over in Hr; [exact Hr|].
  intros k0 e0 k0'. apply IH.
Qed.

(** X11. No dispatch, whatever the event, touches the safety registry,
    the cached observation or the boot time, and none unloads a loaded
    pattern: these change only through [loadSafetyRegistry],
    [ingestObservation] and the constructor. *)
Theorem dispatch_frame :
  forall (fuel : nat) (env : Env) (k : Kernel) (intention : KernelEvent),
    exists k',
      dispatch' (S (S fuel)) env k intention = Some k'
      /\ safetyRegistry (state k') = safetyRegistry (state k)
      /\ lastObservation (state k') = lastObservation (state k)
      /\ bootTimestamp (state k') = bootTimestamp (state k)
      /\ (is_Some (pattern (state k)) -> is_Some (pattern (state k'))).
Proof.
  intros fuel env k intention.
  destruct (dispatch_total' fuel env k intention) as [k' Hd].
  exists k'. split; [exact Hd|].
  apply dispatch_carried_over in Hd.
  destruct Hd as (H1 & H2 & H3 & H4 & _). auto.
Qed.





End KernelInvariants.

(** ** Bookkeeping of a dispatch: log buffer, subscribers, deliveries *)

Section KernelBookkeeping.

Context {Store : Type}.
Variable append : KernelEvent -> Store -> AppendResult * Store.
Variable BREATHING_PATTERNS : gmap string BreathPattern.
Variable nextPhaseSkipZero : BreathPhase -> BreathPattern -> BreathPhase.
Variable isCycleBoundary : BreathPhase -> bool.

#[local] Abbreviation Kernel := (ZenBKernel Store).
#[local] Abbreviation dispatch' :=
  (dispatch append BREATHING_PATTERNS nextPhaseSkipZero isCycleBoundary).
#[local] Abbreviation reduce' :=
  (reduce BREATHING_PATTERNS nextPhaseSkipZero isCycleBoundary).
#[local] Abbreviation handleTick' :=
  (handleTick nextPhaseSkipZero isCycleBoundary).
#[local] Abbreviation dispatch_unfold' :=
  (dispatch_unfold append BREATHING_PATTERNS nextPhaseSkipZero isCycleBoundary).
#[local] Abbreviation dispatch_total' :=
  (dispatch_total append BREATHING_PATTERNS nextPhaseSkipZero isCycleBoundary).

Lemma kept_refl (k : Kernel) : kept k k.
Proof.
  split; [reflexivity|]. split; [auto|].
  exists []. rewrite app_nil_r. reflexivity.
Qed.

Lemma kept_trans (a b c : Kernel) : kept a b -> kept b c -> kept a c.
Proof.
  intros (H1 & H2 & m1 & H3) (G1 & G2 & m2 & G3).
  split; [congruence|]. split; [auto|].
  exists (m1 ++ m2). rewrite G3, H3, app_assoc. reflexivity.
Qed.

Lemma kept_with_state (s : RuntimeState) (k : Kernel) : kept k (with_state s k).
Proof.
  split; [reflexivity|]. split; [auto|].
  exists []. simpl. rewrite app_nil_r. reflexivity.
Qed.

Lemma handleTick_kept
    (self : Kernel -> KernelEvent -> option Kernel) env k dt k' :
  (forall k e k', self k e = Some k' -> kept k k') ->
  handleTick' self env k dt = Some k' -> kept k k'.
Proof.
  intros Hself. unfold handleTick.
  destruct (negb _ && negb _); [intros [= <-]; apply kept_refl|].
  simpl.
  case_bool_decide; [|intros [= <-]; apply kept_with_state].
  destruct (pattern (state k)) as [p|];
    [|intros [= <-]; apply kept_with_state].
  destruct (Qle_bool _ _); [|intros [= <-]; apply kept_with_state].
  match goal with
  | |- context [self ?k0 ?e0] => destruct (self k0 e0) as [k1|] eqn:H1
  end; [|discriminate].
  simpl. apply Hself in H1.
  assert (kept k k1) as Hk1
    by (eapply kept_trans; [apply kept_with_state | exact H1]).
  destruct (isCycleBoundary _); [|intros [= <-]; exact Hk1].
  intros H2. apply Hself in H2. eapply kept_trans; eassumption.
Qed.

Lemma reduce_kept
    (self : Kernel -> KernelEvent -> option Kernel) env k event k' :
  (forall k e k', self k e = Some k' -> kept k k') ->
  reduce' self env k event = Some k' -> kept k k'.
Proof.
  intros Hself.
  destruct event as [| pid ? | | | | | ? to ? | | dt ? | | ? a ?]; simpl;
    try (intros [= <-]; first [apply kept_refl | apply kept_with_state]);
    try (case_bool_decide; intros [= <-];
         first [apply kept_refl | apply kept_with_state]);
    try (destruct (pattern (state k)); intros [= <-];
         first [apply kept_refl | apply kept_with_state]).
  - case_bool_decide; [intros [= <-]; apply kept_refl|].
    destruct (_ !! _); intros [= <-];
      first [apply kept_refl | apply kept_with_state].
  - apply handleTick_kept. exact Hself.
Qed.

Lemma dispatch_bookkeeping fuel :
  forall env k intention k',
    dispatch' fuel env k intention = Some k' ->
    subscribers k' = subscribers k
    /\ (length (logBuffer k') <= 50)%nat
    /\ exists more,
         delivered k'
         = delivered k ++ more
           ++ map (fun cb => (cb, state k')) (subscribers k).
Proof.
  induction fuel as [|fuel IH]; intros env k intention k'; [discriminate|].
  rewrite dispatch_unfold'. cbn zeta.
  destruct (reduce' _ _ _ _) as [k2|] eqn:Hr; [|discriminate].
  intros [= <-].
  apply reduce_kept in Hr.
  - destruct Hr as (Hsub & Hlog & more & Hdel). simpl in *.
    split; [exact Hsub|]. split.
    + apply Hlog. rewrite length_take. lia.
    + exists more. rewrite Hdel, Hsub, app_assoc. reflexivity.
  - intros k0 e0 k0' H0. apply IH in H0 as (Hsub & Hlog & more & Hdel).
    split; [exact Hsub|]. split; [auto|]. eauto.
Qed.

(** X15. After any dispatch the log buffer holds at most 50 events,
    however long it was before. *)
Theorem log_buffer_capacity :
  forall (fuel : nat) (env : Env) (k : Kernel) (intention : KernelEvent),
    exists k',
      dispatch' (S (S fuel)) env k intention = Some k'
      /\ (length (getLogBuffer k') <= 50)%nat.
Proof.
  intros fuel env k intention.
  destruct (dispatch_total' fuel env k intention) as [k' Hd].
  exists k'. split; [exact Hd|].
  exact (proj1 (proj2 (dispatch_bookkeeping _ _ _ _ _ Hd))).
Qed.

(** X16. A dispatch keeps the set of subscribers and everything already
    delivered, and the last thing it delivers is the final state, once to
    each subscriber in subscription order: no subscriber is left with a
    stale view, also when the tick dispatched further events. *)
Theorem subscribers_see_final_state :
  forall (fuel : nat) (env : Env) (k : Kernel) (intention : KernelEvent),
    exists k' more,
      dispatch' (S (S fuel)) env k intention = Some k'
      /\ subscribers k' = subscribers k
      /\ delivered k'
         = delivered k ++ more
           ++ map (fun cb => (cb, state k')) (subscribers k).
Proof.
  intros fuel env k intention.
  destruct (dispatch_total' fuel env k intention) as [k' Hd].
  destruct (dispatch_bookkeeping _ _ _ _ _ Hd) as (Hsub & _ & more & Hdel).
  exists k', more. auto.
Qed.

End KernelBookkeeping.

(** ** The lock, the belief and the guard along a dispatch *)

Section KernelSafety.

Context {Store : Type}.
Variable append : KernelEvent -> Store -> AppendResult * Store.
Variable BREATHING_PATTERNS : gmap string BreathPattern.
Variable nextPhaseSkipZero : BreathPhase -> BreathPattern -> BreathPhase.
Variable isCycleBoundary : BreathPhase -> bool.

#[local] Abbreviation Kernel := (ZenBKernel Store).
#[local] Abbreviation dispatch' :=
  (dispatch append BREATHING_PATTERNS nextPhaseSkipZero isCycleBoundary).
#[local] Abbreviation reduce' :=
  (reduce BREATHING_PATTERNS nextPhaseSkipZero isCycleBoundary).
#[local] Abbreviation handleTick' :=
  (handleTick nextPhaseSkipZero isCycleBoundary).
#[local] Abbreviation logged' := (logged append).
#[local] Abbreviation dispatch_unfold' :=
  (dispatch_unfold append BREATHING_PATTERNS nextPhaseSkipZero isCycleBoundary).
#[local] Abbreviation dispatch_PT :=
  (dispatch_PHASE_TRANSITION append BREATHING_PATTERNS nextPhaseSkipZero
     isCycleBoundary).
#[local] Abbreviation dispatch_CC :=
  (dispatch_CYCLE_COMPLETE append BREATHING_PATTERNS nextPhaseSkipZero
     isCycleBoundary).

(** The belief after a tick: the controller's update when a session is
    running or paused, the belief as it was otherwise; the status stays. *)
Lemma handleTick_belief fuel env k dt :
  exists k',
    handleTick' (dispatch' (S fuel) env) env k dt = Some k'
    /\ status (state k') = status (state k)
    /\ (status (state k) <> RUNNING -> status (state k) <> PAUSED ->
        belief (state k') = belief (state k))
    /\ (status (state k) = RUNNING \/ status (state k) = PAUSED ->
        belief (state k')
        = FreeEnergyController.update (belief (state k))
            (synthesize env (state k) dt) (pattern (state k))).
Proof.
  unfold handleTick.
  destruct (negb _ && negb _) eqn:Hinert.
  { exists k. split; [reflexivity|]. split; [reflexivity|].
    split; [reflexivity|].
    apply andb_true_iff in Hinert as [H1 H2].
    apply negb_true_iff, bool_decide_eq_false in H1.
    apply negb_true_iff, bool_decide_eq_false in H2.
    intros [?|?]; contradiction. }
  assert (status (state k) <> RUNNING -> status (state k) <> PAUSED -> False)
    as Hactive.
  { intros H1 H2. rewrite !bool_decide_eq_false_2 in Hinert by assumption.
    discriminate Hinert. }
  simpl. case_bool_decide.
  2:{ eexists. split; [reflexivity|]. simpl.
      split; [reflexivity|]. split; [intros; exfalso; auto | reflexivity]. }
  destruct (pattern (state k)) as [p|] eqn:Hp.
  2:{ eexists. split; [reflexivity|]. simpl.
      split; [reflexivity|].
      split; [intros; exfalso; auto | rewrite ?Hp; reflexivity]. }
  destruct (Qle_bool _ _).
  2:{ eexists. split; [reflexivity|]. simpl.
      split; [reflexivity|].
      split; [intros; exfalso; auto | rewrite ?Hp; reflexivity]. }
  rewrite dispatch_PT. simpl.
  destruct (isCycleBoundary _).
  - rewrite dispatch_CC. eexists. split; [reflexivity|]. simpl.
    rewrite ?Hp. simpl. split; [reflexivity|].
    split; [intros; exfalso; auto | reflexivity].
  - eexists. split; [reflexivity|]. simpl.
    rewrite ?Hp. simpl. split; [reflexivity|].
    split; [intros; exfalso; auto | reflexivity].
Qed.

(** X17. From a state that is not locked, a dispatch ends in SAFETY_LOCK
    exactly when the event it processes (the guard's override, or else
    the intention itself) is a SAFETY_INTERDICTION with action
    EMERGENCY_DAMPENING. *)
Theorem lock_entered_by_dampening_only :
  forall (fuel : nat) (env : Env) (k : Kernel) (intention : KernelEvent),
    status (state k) <> SAFETY_LOCK ->
    exists k',
      dispatch' (S (S fuel)) env k intention = Some k'
      /\ (status (state k') = SAFETY_LOCK
          <-> exists riskLevel ts,
                default intention
                  (SafetyPlane.intercept env (state k) intention)
                = SAFETY_INTERDICTION riskLevel "EMERGENCY_DAMPENING" ts).
Proof.
  intros fuel env k intention Hs.
  rewrite dispatch_unfold'.
  destruct (SafetyPlane.intercept env (state k) intention) as [e|] eqn:Hi.
  - pose proof (GuardFacts.intercept_shape _ _ _ _ Hi) as (r & a & ->).
    cbn [default]. simpl. case_bool_decide as Ha.
    + subst a. eexists. split; [reflexivity|]. simpl.
      split; [eauto | reflexivity].
    + eexists. split; [reflexivity|]. simpl.
      split; [intros; contradiction | intros (r' & ts' & [= _ Ha' _]); contradiction].
  - cbn [default].
    destruct intention as [| pid ? | | | | | | | dt ? | | ? a ?]; simpl.
    + eexists. split; [reflexivity|]. simpl.
      split; [discriminate | intros (? & ? & [=])].
    + rewrite bool_decide_eq_false_2 by exact Hs.
      destruct (_ !! _); eexists; (split; [reflexivity|]); simpl;
        (split; [first [discriminate | intros; contradiction]
                | intros (? & ? & [=])]).
    + destruct (pattern (state k)); eexists; (split; [reflexivity|]); simpl;
        (split; [first [discriminate | intros; contradiction]
                | intros (? & ? & [=])]).
    + case_bool_decide; eexists; (split; [reflexivity|]); simpl;
        (split; [first [discriminate | intros; contradiction]
                | intros (? & ? & [=])]).
    + case_bool_decide; eexists; (split; [reflexivity|]); simpl;
        (split; [first [discriminate | intros; contradiction]
                | intros (? & ? & [=])]).
    + eexists. split; [reflexivity|]. simpl.
      split; [discriminate | intros (? & ? & [=])].
    + destruct (pattern (state k)); eexists; (split; [reflexivity|]); simpl;
        (split; [intros; contradiction | intros (? & ? & [=])]).
    + eexists. split; [reflexivity|]. simpl.
      split; [intros; contradiction | intros (? & ? & [=])].
    + destruct (handleTick_belief fuel env (logged' (TICK dt timestamp) k) dt)
        as (k' & -> & Hst & _).
      eexists. split; [reflexivity|]. simpl in *. rewrite Hst.
      split; [intros; contradiction | intros (? & ? & [=])].
    + eexists. split; [reflexivity|]. simpl.
      split; [intros; contradiction | intros (? & ? & [=])].
    + case_bool_decide as Ha.
      * subst a. eexists. split; [reflexivity|]. simpl.
        split; [eauto | reflexivity].
      * eexists. split; [reflexivity|]. simpl.
        split; [intros; contradiction
               | intros (r' & ts' & [= _ Ha' _]); contradiction].
Qed.

Lemma dispatch_fractions :
  forall (fuel : nat) (env : Env) (k : Kernel) (intention : KernelEvent),
    fractions (belief (state k)) ->
    (forall dt ts, intention = TICK dt ts -> 0 <= dt <= 1) ->
    exists k',
      dispatch' (S (S fuel)) env k intention = Some k'
      /\ fractions (belief (state k')).
Proof.
  intros fuel env k intention Hb Hdt.
  rewrite dispatch_unfold'.
  destruct (SafetyPlane.intercept env (state k) intention) as [e|] eqn:Hi.
  - pose proof (GuardFacts.intercept_shape _ _ _ _ Hi) as (r & a & ->).
    cbn [default]. simpl.
    case_bool_decide; eexists; (split; [reflexivity | exact Hb]).
  - cbn [default].
    destruct intention as [| pid ? | | | | | | | dt ? | | ? a ?]; simpl;
      try (eexists; split; [reflexivity | exact Hb]);
      try (case_bool_decide; eexists; (split; [reflexivity | exact Hb]));
      try (destruct (pattern (state k)); eexists;
           (split; [reflexivity | exact Hb])).
    + case_bool_decide; [eexists; split; [reflexivity | exact Hb]|].
      destruct (_ !! _); eexists; (split; [reflexivity|]); [|exact Hb].
      simpl. destruct Hb as (Ha & Hat & _).
      unfold fractions. simpl. repeat split; try tauto; lra.
    + destruct (handleTick_belief fuel env (logged' (TICK dt timestamp) k) dt)
        as (k' & -> & _ & Hinert & Hactive).
      eexists. split; [reflexivity|]. simpl in *.
      destruct (decide (status (state k) = RUNNING)) as [Hr|Hr].
      { rewrite Hactive by (left; exact Hr).
        apply ControllerMore.update_fractions; [exact Hb|].
        simpl. eapply Hdt. reflexivity. }
      destruct (decide (status (state k) = PAUSED)) as [Hp|Hp].
      { rewrite Hactive by (right; exact Hp).
        apply ControllerMore.update_fractions; [exact Hb|].
        simpl. eapply Hdt. reflexivity. }
      rewrite Hinert by assumption. exact Hb.
Qed.

(** X18. The three fractions of the belief stay fractions along the
    kernel: if arousal, attention and rhythm_alignment lie in [0,1] before
    a dispatch, and the event, if it is a tick, has dt in [0,1], they lie
    in [0,1] after it, whatever the event and whether or not the guard
    overrides it. *)
Theorem belief_fractions_kept :
  forall (fuel : nat) (env : Env) (k : Kernel) (intention : KernelEvent),
    fractions (belief (state k)) ->
    (forall dt ts, intention = TICK dt ts -> 0 <= dt <= 1) ->
    exists k',
      dispatch' (S (S fuel)) env k intention = Some k'
      /\ fractions (belief (state k')).
Proof.
  exact dispatch_fractions.
Qed.

Lemma synthesize_visible env s dt :
  status s = RUNNING -> document_hidden env = false ->
  FreeEnergyController.isDistracted (synthesize env s dt) = false.
Proof.
  intros Hs Hv. unfold FreeEnergyController.isDistracted, synthesize. simpl.
  rewrite Hs, Hv. reflexivity.
Qed.

(** X19. A tick dispatched while RUNNING with the page in view, on a
    belief whose arousal and rhythm_alignment lie in [0,1], never arms the
    high-entropy cutoff: in the state it ends in, the guard lets every
    following tick through. *)
Theorem visible_tick_never_arms_cutoff :
  forall (fuel : nat) (env : Env) (k : Kernel) (dt ts : Q),
    status (state k) = RUNNING ->
    document_hidden env = false ->
    0 <= arousal (belief (state k)) <= 1 ->
    0 <= rhythm_alignment (belief (state k)) <= 1 ->
    exists k',
      dispatch' (S (S fuel)) env k (TICK dt ts) = Some k'
      /\ forall env' dt' ts',
           SafetyPlane.intercept env' (state k') (TICK dt' ts') = None.
Proof.
  intros fuel env k dt ts Hs Hv Ha Hr.
  rewrite dispatch_unfold'.
  destruct (SafetyPlane.intercept env (state k) (TICK dt ts)) as [e|] eqn:Hi.
  - apply GuardMore.intercept_cases in Hi
      as [((? & [=]) & _) | [(_ & _ & _ & _ & ->) | (? & ? & ? & [=] & _)]].
    cbn [default]. simpl. eexists. split; [reflexivity|].
    intros env' dt' ts'. apply GuardFacts.intercept_TICK_not_running.
    simpl. discriminate.
  - cbn [default]. simpl.
    destruct (handleTick_belief fuel env (logged' (TICK dt ts) k) dt)
      as (k' & -> & _ & _ & Hactive).
    eexists. split; [reflexivity|]. simpl in *.
    intros env' dt' ts'. apply GuardFacts.intercept_TICK_pass.
    rewrite Hactive by (left; exact Hs).
    assert (prediction_error
              (FreeEnergyController.update (belief (state k))
                 (synthesize env (state k) dt) (pattern (state k)))
            <= 0.58) as Hpe.
    { apply (ControllerMore.free_energy_bounds_visible (belief (state k))
               (synthesize env (state k) dt)); try assumption.
      apply synthesize_visible; assumption. }
    assert (Qgtb
              (prediction_error
                 (FreeEnergyController.update (belief (state k))
                    (synthesize env (state k) dt) (pattern (state k))))
              0.95 = false) as ->.
    { apply Qgtb_false. lra. }
    reflexivity.
Qed.

End KernelSafety.

(** ** The driver *)

Section DriverFacts.

Context {Store : Type}.
Variable append : KernelEvent -> Store -> AppendResult * Store.
Variable BREATHING_PATTERNS : gmap string BreathPattern.
Variable nextPhaseSkipZero : BreathPhase -> BreathPattern -> BreathPhase.
Variable isCycleBoundary : BreathPhase -> bool.

#[local] Abbreviation Kernel := (ZenBKernel Store).
#[local] Abbreviation dispatch' :=
  (dispatch append BREATHING_PATTERNS nextPhaseSkipZero isCycleBoundary).
#[local] Abbreviation logged' := (logged append).

Import BreathEngine.

(** X20. The progress the driver shows is a fraction for every state,
    also when phaseDuration is zero or negative (the divisor is never
    below 0.001); and it is phaseElapsed / phaseDuration whenever
    phaseDuration is at least 0.001 and phaseElapsed lies between 0 and
    phaseDuration. *)
Theorem progress_fraction :
  forall s : RuntimeState,
    (0 <= progress s <= 1)
    /\ (0.001 <= phaseDuration s ->
        0 <= phaseElapsed s <= phaseDuration s ->
        progress s == phaseElapsed s / phaseDuration s).
Proof.
  intros s. unfold progress. cbn zeta. split.
  - split; [apply Q.le_max_l|].
    apply Q.max_lub; [lra | apply Q.le_min_r].
  - intros Hd He.
    rewrite (Q.max_l (phaseDuration s) 0.001) by exact Hd.
    assert (0 <= phaseElapsed s / phaseDuration s <= 1) as [H0 H1].
    { split.
      - apply Qle_shift_div_l; lra.
      - apply Qle_shift_div_r; lra. }
    rewrite (Q.min_l _ 1) by exact H1.
    apply Q.max_r. exact H0.
Qed.

Lemma tick_dt_range (now_ms lastTime : Q) :
  lastTime <= now_ms -> 0 <= tick_dt now_ms lastTime <= 0.1.
Proof.
  intros H. unfold tick_dt. split.
  - apply Q.min_glb; [|lra]. apply Qle_shift_div_l; lra.
  - apply Q.le_min_r.
Qed.

(** X21. The time step of the clock loop never exceeds 0.1 s, and is
    not negative when the clock has not gone back; dispatched as a tick,
    such a step keeps the three fractions of the belief in [0,1]. *)
Theorem clock_tick_keeps_fractions :
  forall (fuel : nat) (env : Env) (k : Kernel) (now_ms lastTime ts : Q),
    lastTime <= now_ms ->
    fractions (belief (state k)) ->
    (0 <= tick_dt now_ms lastTime <= 0.1)
    /\ exists k',
         dispatch' (S (S fuel)) env k (TICK (tick_dt now_ms lastTime) ts)
         = Some k'
         /\ fractions (belief (state k')).
Proof.
  intros fuel env k now_ms lastTime ts Hclock Hb.
  pose proof (tick_dt_range now_ms lastTime Hclock) as Hdt.
  split; [exact Hdt|].
  apply dispatch_fractions; [exact Hb|].
  intros dt ts' [= <- _]. lra.
Qed.

Lemma weak_vitals_unusable env env0 (v : VitalSigns) (s : RuntimeState) dt :
  confidence v <= 0.6 \/ heartRate v == 0 ->
  FreeEnergyController.hr_usable
    (synthesize env
       (set_lastObservation (Some (vitals_observation env0 v)) s) dt)
  = false.
Proof.
  intros H. unfold FreeEnergyController.hr_usable, synthesize. simpl.
  destruct H as [Hc | Hz].
  - apply Qgtb_false in Hc. rewrite Hc. apply andb_false_r.
  - apply Qeq_bool_iff in Hz. rewrite Hz. reflexivity.
Qed.

(** X22. Camera vitals with confidence at most 0.3 are not passed to the
    kernel at all.  Vitals with a confidence above 0.3 that is at most
    0.6, or with a heart rate of 0, are cached (replacing whatever was
    cached) and do not ground the belief: the tick that follows leaves the
    arousal as it was. *)
Theorem weak_vitals_do_not_ground :
  forall (fuel : nat) (env env0 : Env) (k : Kernel) (v : VitalSigns)
         (dt ts : Q),
    (confidence v <= 0.3 -> feed_vitals env0 v k = k)
    /\ (0.3 < confidence v ->
        confidence v <= 0.6 \/ heartRate v == 0 ->
        lastObservation (state (feed_vitals env0 v k))
        = Some (vitals_observation env0 v)
        /\ exists k',
             dispatch' (S (S fuel)) env (feed_vitals env0 v k) (TICK dt ts)
             = Some k'
             /\ arousal (belief (state k')) == arousal (belief (state k))).
Proof.
  intros fuel env env0 k v dt ts. split.
  - intros Hc. unfold feed_vitals.
    apply Qgtb_false in Hc. rewrite Hc. reflexivity.
  - intros Hc Hweak. unfold feed_vitals.
    apply Qgtb_true in Hc. rewrite Hc.
    split; [reflexivity|].
    set (k1 := ingestObservation (vitals_observation env0 v) k).
    rewrite (dispatch_unfold append BREATHING_PATTERNS nextPhaseSkipZero
               isCycleBoundary).
    destruct (SafetyPlane.intercept env (state k1) (TICK dt ts)) as [e|] eqn:Hi.
    + pose proof (GuardFacts.intercept_shape _ _ _ _ Hi) as (r & a & ->).
      cbn [default]. simpl.
      case_bool_decide; eexists; (split; [reflexivity|]); simpl; reflexivity.
    + cbn [default]. simpl.
      destruct (handleTick_belief append BREATHING_PATTERNS nextPhaseSkipZero
                  isCycleBoundary fuel env (logged' (TICK dt ts) k1) dt)
        as (k' & -> & _ & Hinert & Hactive).
      eexists. split; [reflexivity|]. simpl in *.
      destruct (decide (status (state k) = RUNNING)) as [Hr|Hr];
        [|destruct (decide (status (state k) = PAUSED)) as [Hp|Hp]].
      * rewrite Hactive by (left; exact Hr).
        apply ControllerMore.arousal_update_aux.
        apply weak_vitals_unusable. exact Hweak.
      * rewrite Hactive by (right; exact Hp).
        apply ControllerMore.arousal_update_aux.
        apply weak_vitals_unusable. exact Hweak.
      * rewrite Hinert by assumption. reflexivity.
Qed.

End DriverFacts.

(** ** Sessions *)

Section KernelSessions.

Context {Store : Type}.
Variable append : KernelEvent -> Store -> AppendResult * Store.
Variable BREATHING_PATTERNS : gmap string BreathPattern.
Variable nextPhaseSkipZero : BreathPhase -> BreathPattern -> BreathPhase.
Variable isCycleBoundary : BreathPhase -> bool.

#[local] Abbreviation Kernel := (ZenBKernel Store).
#[local] Abbreviation dispatch' :=
  (dispatch append BREATHING_PATTERNS nextPhaseSkipZero isCycleBoundary).
#[local] Abbreviation handleTick' :=
  (handleTick nextPhaseSkipZero isCycleBoundary).
#[local] Abbreviation logged' := (logged append).
#[local] Abbreviation dispatch_unfold' :=
  (dispatch_unfold append BREATHING_PATTERNS nextPhaseSkipZero isCycleBoundary).

(** X23. The driver's start sequence, LOAD_PROTOCOL then START_SESSION:
    from a state that is not locked, with the pattern in the catalogue and
    no lock on it in force, it ends RUNNING on that pattern at the start of
    inhale with cycleCount and sessionDuration 0, whatever session was
    there before; from a locked state both events are refused and the
    RuntimeState is left exactly as it was. *)
Theorem start_sequence :
  forall (fuel : nat) (env env' : Env) (k : Kernel) (patternId : string)
         (ts ts' : Q),
    (status (state k) = SAFETY_LOCK ->
     exists k1 k2,
       dispatch' (S fuel) env k (LOAD_PROTOCOL patternId ts) = Some k1
       /\ dispatch' (S fuel) env' k1 (START_SESSION ts') = Some k2
       /\ state k2 = state k)
    /\ (forall p,
           status (state k) <> SAFETY_LOCK ->
           BREATHING_PATTERNS !! patternId = Some p ->
           (forall profile,
               safetyRegistry (state k) !! patternId = Some profile ->
               safety_lock_until profile <= now env) ->
           exists k1 k2,
             dispatch' (S fuel) env k (LOAD_PROTOCOL patternId ts) = Some k1
             /\ dispatch' (S fuel) env' k1 (START_SESSION ts') = Some k2
             /\ status (state k2) = RUNNING
             /\ pattern (state k2) = Some p
             /\ phase (state k2) = inhale
             /\ phaseElapsed (state k2) = 0
             /\ phaseDuration (state k2) = t_inhale (timings p)
             /\ cycleCount (state k2) = 0
             /\ sessionDuration (state k2) = 0).
Proof.
  intros fuel env env' k pid ts ts'. split.
  - intros Hl.
    destruct (load_no_op append BREATHING_PATTERNS nextPhaseSkipZero
                isCycleBoundary fuel env k pid ts (or_intror (or_introl Hl)))
      as (k1 & H1 & Hs1).
    assert (status (state k1) = SAFETY_LOCK) as Hl1 by (rewrite Hs1; exact Hl).
    destruct (start_rejected append BREATHING_PATTERNS
                nextPhaseSkipZero isCycleBoundary fuel env' k1 ts' Hl1)
      as (k2 & H2 & Hs2 & _).
    exists k1, k2. split; [exact H1|]. split; [exact H2 | congruence].
  - intros p Hl Hp Hlock.
    destruct (load_installs append BREATHING_PATTERNS nextPhaseSkipZero
                isCycleBoundary fuel env k pid ts p Hl Hp Hlock)
      as (k1 & H1 & Hs1 & _).
    assert (exists k2,
               dispatch' (S fuel) env' k1 (START_SESSION ts') = Some k2
               /\ state k2 = set_status RUNNING (state k1)) as (k2 & H2 & Hs2).
    { rewrite dispatch_unfold'.
      assert (SafetyPlane.intercept env' (state k1) (START_SESSION ts') = None)
        as ->.
      { unfold SafetyPlane.intercept, SafetyPlane.rule1. rewrite Hs1. simpl.
        reflexivity. }
      cbn [default]. simpl. rewrite Hs1. simpl.
      eexists. split; reflexivity. }
    exists k1, k2. split; [exact H1|]. split; [exact H2|].
    rewrite Hs2, Hs1. simpl. repeat split.
Qed.

(** The session clock after a tick: as it was, or advanced by dt. *)
Lemma handleTick_session fuel env k dt :
  exists k',
    handleTick' (dispatch' (S fuel) env) env k dt = Some k'
    /\ (sessionDuration (state k') = sessionDuration (state k)
        \/ sessionDuration (state k') = sessionDuration (state k) + dt).
Proof.
  unfold handleTick.
  destruct (negb _ && negb _); [eauto|].
  simpl. case_bool_decide; [|eauto].
  destruct (pattern (state k)) as [p|] eqn:Hp; [|eauto].
  destruct (Qle_bool _ _); [|eauto].
  rewrite (dispatch_PHASE_TRANSITION append BREATHING_PATTERNS
             nextPhaseSkipZero isCycleBoundary). simpl.
  destruct (isCycleBoundary _).
  - rewrite (dispatch_CYCLE_COMPLETE append BREATHING_PATTERNS
               nextPhaseSkipZero isCycleBoundary).
    eexists. split; [reflexivity|]. simpl. rewrite ?Hp. simpl. right. reflexivity.
  - eexists. split; [reflexivity|]. simpl. rewrite ?Hp. simpl. right. reflexivity.
Qed.

(** X24. The session clock only runs forward and only on ticks: a
    dispatched event other than LOAD_PROTOCOL and TICK leaves
    sessionDuration as it was; a TICK leaves it or adds its dt to it, so
    that with dt >= 0 it does not decrease; a LOAD_PROTOCOL leaves it or
    sets it to 0. *)
Theorem session_clock :
  forall (fuel : nat) (env : Env) (k : Kernel) (intention : KernelEvent),
    exists k',
      dispatch' (S (S fuel)) env k intention = Some k'
      /\ match intention with
         | LOAD_PROTOCOL _ _ =>
             sessionDuration (state k') = sessionDuration (state k)
             \/ sessionDuration (state k') = 0
         | TICK dt _ =>
             (sessionDuration (state k') = sessionDuration (state k)
              \/ sessionDuration (state k') = sessionDuration (state k) + dt)
             /\ (0 <= dt ->
                 sessionDuration (state k) <= sessionDuration (state k'))
         | _ => sessionDuration (state k') = sessionDuration (state k)
         end.
Proof.
  intros fuel env k intention.
  rewrite dispatch_unfold'.
  destruct (SafetyPlane.intercept env (state k) intention) as [e|] eqn:Hi.
  - pose proof (GuardFacts.intercept_shape _ _ _ _ Hi) as (r & a & ->).
    cbn [default]. simpl.
    exists (notify
              (if bool_decide (a = "EMERGENCY_DAMPENING"%string)
               then with_state (set_status SAFETY_LOCK (state k))
                      (logged' (SAFETY_INTERDICTION r a (now env)) k)
               else logged' (SAFETY_INTERDICTION r a (now env)) k)).
    split; [case_bool_decide; reflexivity|].
    assert (sessionDuration
              (state (notify
                 (if bool_decide (a = "EMERGENCY_DAMPENING"%string)
                  then with_state (set_status SAFETY_LOCK (state k))
                         (logged' (SAFETY_INTERDICTION r a (now env)) k)
                  else logged' (SAFETY_INTERDICTION r a (now env)) k)))
            = sessionDuration (state k)) as ->
      by (case_bool_decide; reflexivity).
    destruct intention; try reflexivity.
    + left. reflexivity.
    + split; [left; reflexivity | intros; lra].
  - cbn [default].
    destruct intention as [| pid ? | | | | | | | dt ? | | ? a ?]; simpl;
      try (eexists; split; [reflexivity | reflexivity]);
      try (case_bool_decide; eexists; (split; [reflexivity | reflexivity]));
      try (destruct (pattern (state k)); eexists;
           (split; [reflexivity | reflexivity])).
    + case_bool_decide; [eexists; split; [reflexivity | left; reflexivity]|].
      destruct (_ !! _); eexists; (split; [reflexivity|]);
        [right | left]; reflexivity.
    + destruct (handleTick_session fuel env (logged' (TICK dt timestamp) k) dt)
        as (k' & -> & Hsd).
      eexists. split; [reflexivity|]. simpl in *.
      split; [exact Hsd|]. intros Hdt. destruct Hsd as [-> | ->]; lra.
Qed.

End KernelSessions.

(** ** Instances on concrete runs *)

Module MoreSampleFacts.
Import Sample.



Lemma prediction_error_range_witness :
  0.6 <= prediction_error (FreeEnergyController.update
                             ControllerSpec.prior_belief
                             ControllerSpec.paused_obs None) <= 1.18.
Proof.
  apply (proj2 (ControllerMore.prediction_error_range
                  ControllerSpec.prior_belief ControllerSpec.paused_obs None
                  ltac:(simpl; lra) ltac:(simpl; lra))).
  reflexivity.
Defined.

Lemma start_rejected_when_locked_witness :
  exists k',
    dispatch 1 (visible 7) locked_kernel (START_SESSION 7) = Some k'
    /\ state k' = state locked_kernel.
Proof.
  destruct (start_rejected_when_locked append_ok BREATHING_PATTERNS
              nextPhaseSkipZero isCycleBoundary 0 (visible 7) locked_kernel 7
              eq_refl) as (k' & Hd & Hs & _).
  exists k'. split; [exact Hd | exact Hs].
Defined.

Lemma load_refused_witness :
  exists k',
    dispatch 1 (visible 1) guarded_kernel (LOAD_PROTOCOL "box" 1) = Some k'
    /\ state k' = state guarded_kernel.
Proof.
  apply (load_refused append_ok BREATHING_PATTERNS nextPhaseSkipZero
           isCycleBoundary 0 (visible 1) guarded_kernel "box" 1).
  right. right. exists (mkSafetyProfile 100).
  split; [vm_compute; reflexivity | reflexivity].
Defined.

Lemma load_accepted_witness :
  exists k',
    dispatch 1 (visible 1) blank (LOAD_PROTOCOL "box" 1) = Some k'
    /\ pattern (state k') = Some box
    /\ phaseDuration (state k') = 4.
Proof.
  destruct (load_accepted append_ok BREATHING_PATTERNS nextPhaseSkipZero
              isCycleBoundary 0 (visible 1) blank "box" 1 box
              ltac:(discriminate) ltac:(vm_compute; reflexivity)
              ltac:(intros profile H; vm_compute in H; discriminate H))
    as (k' & Hd & Hs & _).
  exists k'. split; [exact Hd|]. rewrite Hs. split; reflexivity.
Defined.

Lemma pause_resume_round_trip_witness :
  exists k1 k2,
    dispatch 1 (visible 3) started_kernel (INTERRUPTION "pause" 3) = Some k1
    /\ dispatch 1 (visible 4) k1 (RESUME 4) = Some k2
    /\ state k2 = state started_kernel.
Proof.
  destruct (pause_resume_round_trip append_ok BREATHING_PATTERNS
              nextPhaseSkipZero isCycleBoundary 0 (visible 3) (visible 4)
              started_kernel "pause" 3 4 eq_refl)
    as (k1 & k2 & H1 & _ & H2 & Hs).
  exists k1, k2. split; [exact H1|]. split; [exact H2 | exact Hs].
Defined.

Lemma paused_tick_witness :
  exists k',
    dispatch 1 (visible 4) paused_kernel (TICK 0.1 4) = Some k'
    /\ attention (belief (state k'))
       = Qmax 0 (attention (belief (state paused_kernel)) - 1.0 * 0.1).
Proof.
  destruct (paused_tick append_ok BREATHING_PATTERNS nextPhaseSkipZero
              isCycleBoundary 0 (visible 4) paused_kernel 0.1 4 eq_refl)
    as (k' & Hd & _ & Ha & _).
  exists k'. split; [exact Hd | exact Ha].
Defined.

Lemma running_tick_within_phase_witness :
  exists k',
    dispatch 1 (visible 3) started_kernel (TICK 1 3) = Some k'
    /\ state k' = advanced (visible 3) (state started_kernel) 1.
Proof.
  assert (~ (0.95 < prediction_error (belief (state started_kernel))
             /\ 10 < sessionDuration (state started_kernel))) as Hg.
  { intros [H _]. vm_compute in H. discriminate H. }
  destruct (running_tick_within_phase append_ok BREATHING_PATTERNS
              nextPhaseSkipZero isCycleBoundary 0 (visible 3) started_kernel
              box 1 3 eq_refl eq_refl Hg eq_refl)
    as (k' & Hd & Hs & _).
  exists k'. split; [exact Hd | exact Hs].
Defined.

Lemma running_tick_crossing_witness :
  exists k',
    dispatch 2 (visible 3) started_kernel (TICK 6 3) = Some k'
    /\ phase (state k') = holdIn
    /\ phaseElapsed (state k') = 0
    /\ sessionDuration (state k') = sessionDuration (state started_kernel) + 6.
Proof.
  assert (~ (0.95 < prediction_error (belief (state started_kernel))
             /\ 10 < sessionDuration (state started_kernel))) as Hg.
  { intros [H _]. vm_compute in H. discriminate H. }
  destruct (running_tick_crossing append_ok BREATHING_PATTERNS
              nextPhaseSkipZero isCycleBoundary 0 (visible 3) started_kernel
              box 6 3 eq_refl eq_refl Hg ltac:(vm_compute; discriminate))
    as (k' & Hd & Hph & He & _ & Hsd & _).
  exists k'. split; [exact Hd|]. split; [exact Hph|].
  split; [exact He | exact Hsd].
Defined.




Lemma lock_entered_by_dampening_only_witness :
  exists k',
    dispatch 2 (hidden 6) crossing_kernel (TICK 0.1 6) = Some k'
    /\ status (state k') = SAFETY_LOCK.
Proof.
  destruct (lock_entered_by_dampening_only append_ok BREATHING_PATTERNS
              nextPhaseSkipZero isCycleBoundary 0 (hidden 6) crossing_kernel
              (TICK 0.1 6) ltac:(discriminate))
    as (k' & Hd & Hiff).
  exists k'. split; [exact Hd|].
  apply Hiff. exists 0.95, 6. vm_compute. reflexivity.
Defined.

Lemma belief_fractions_kept_witness :
  exists k',
    dispatch 2 (visible 3) started_kernel (TICK 0.1 3) = Some k'
    /\ fractions (belief (state k')).
Proof.
  apply (belief_fractions_kept append_ok BREATHING_PATTERNS nextPhaseSkipZero
           isCycleBoundary 0 (visible 3) started_kernel (TICK 0.1 3)).
  - unfold fractions. simpl. lra.
  - intros dt ts [= <- _]. lra.
Defined.

Lemma visible_tick_never_arms_cutoff_witness :
  exists k',
    dispatch 2 (visible 3) started_kernel (TICK 0.1 3) = Some k'
    /\ forall env' dt' ts',
         SafetyPlane.intercept env' (state k') (TICK dt' ts') = None.
Proof.
  apply (visible_tick_never_arms_cutoff append_ok BREATHING_PATTERNS
           nextPhaseSkipZero isCycleBoundary 0 (visible 3) started_kernel
           0.1 3 eq_refl eq_refl); simpl; lra.
Defined.

Lemma progress_fraction_witness :
  BreathEngine.progress (state started_kernel)
  == phaseElapsed (state started_kernel) / phaseDuration (state started_kernel).
Proof.
  apply (proj2 (progress_fraction (state started_kernel))); simpl; lra.
Defined.

Lemma clock_tick_keeps_fractions_witness :
  (0 <= BreathEngine.tick_dt 1016 1000 <= 0.1)
  /\ exists k',
       dispatch 2 (visible 3) started_kernel
         (TICK (BreathEngine.tick_dt 1016 1000) 3) = Some k'
       /\ fractions (belief (state k')).
Proof.
  apply (clock_tick_keeps_fractions append_ok BREATHING_PATTERNS
           nextPhaseSkipZero isCycleBoundary 0 (visible 3) started_kernel
           1016 1000 3).
  - lra.
  - unfold fractions. simpl. lra.
Defined.

Lemma weak_vitals_do_not_ground_witness :
  exists k',
    dispatch 2 (visible 3)
      (BreathEngine.feed_vitals (visible 3) BreathEngine.faint_vitals
         started_kernel)
      (TICK 0.1 3) = Some k'
    /\ arousal (belief (state k')) == arousal (belief (state started_kernel)).
Proof.
  apply (proj2 (weak_vitals_do_not_ground append_ok BREATHING_PATTERNS
                  nextPhaseSkipZero isCycleBoundary 0 (visible 3) (visible 3)
                  started_kernel BreathEngine.faint_vitals 0.1 3)).
  - simpl. lra.
  - left. simpl. lra.
Defined.

Lemma start_sequence_witness :
  exists k1 k2,
    dispatch 1 (visible 1) counted_kernel (LOAD_PROTOCOL "4-7-8" 1) = Some k1
    /\ dispatch 1 (visible 2) k1 (START_SESSION 2) = Some k2
    /\ status (state k2) = RUNNING
    /\ pattern (state k2) = Some relax
    /\ cycleCount (state k2) = 0.
Proof.
  destruct (proj2 (start_sequence append_ok BREATHING_PATTERNS
                     nextPhaseSkipZero isCycleBoundary 0 (visible 1)
                     (visible 2) counted_kernel "4-7-8" 1 2)
              relax ltac:(discriminate) ltac:(vm_compute; reflexivity)
              ltac:(intros profile H; vm_compute in H; discriminate H))
    as (k1 & k2 & H1 & H2 & Hs & Hp & _ & _ & _ & Hc & _).
  exists k1, k2. repeat (split; [assumption|]). exact Hc.
Defined.

End MoreSampleFacts.
